(** * sarparse: parsing 'sar' reports and re-anchoring their timestamps

    A shallow embedding of [sarparse.py] (a Python 2 module) and the
    properties of its timestamp reconstruction and of its line tokenizers.

    Conventions of the embedding:
    - a Python [str] is a [string] (a sequence of bytes);
    - a Python [int]/[long] is a [Z] (unbounded);
    - a Python [float] is a binary64 [float];
    - a raised exception is the [Raise] branch of [result];
    - a text file is the list of its lines, as iterating over the file
      object yields them (each line keeps its line terminator). *)

From Stdlib Require Import ZArith Lia String Ascii List Floats Uint63.
From stdpp Require Import base option list strings gmap.

Local Open Scope string_scope.
Local Open Scope list_scope.
Local Open Scope Z_scope.

(** ** Exceptions *)

Inductive exn : Type :=
  | AssertionError (msg : option Z)
  | IndexError
  | ValueError
  | OverflowError
  | AttributeError
  | TypeError.

Inductive result (A : Type) : Type :=
  | Ok (a : A)
  | Raise (e : exn).

Arguments Ok {A} a.
Arguments Raise {A} e.

#[global] Instance result_ret : MRet result := @Ok.
#[global] Instance result_bind : MBind result := fun A B f m =>
  match m with
  | Ok a => f a
  | Raise e => Raise e
  end.
#[global] Instance result_fmap : FMap result := fun A B f m =>
  match m with
  | Ok a => Ok (f a)
  | Raise e => Raise e
  end.

Definition raises {A} (m : result A) : Prop := exists e, m = Raise e.

Definition is_ok {A} (m : result A) : bool :=
  match m with Ok _ => true | Raise _ => false end.

(** [assert c, msg] *)
Definition py_assert (c : bool) (msg : option Z) : result unit :=
  if c then Ok tt else Raise (AssertionError msg).

(** [l[i]] for a non-negative literal index [i]. *)
Definition py_index {A} (l : list A) (i : nat) : result A :=
  match l !! i with
  | Some a => Ok a
  | None => Raise IndexError
  end.

(** ** Python 2 [str] primitives *)

Module PyStr.

(** The bytes [str.strip()], [str.split()] and [int()] treat as
    whitespace: TAB, LF, VT, FF, CR and the space. *)
Definition is_space (c : ascii) : bool :=
  let n := nat_of_ascii c in
  (((9 <=? n) && (n <=? 13)) || (n =? 32))%nat.

Fixpoint lstrip (s : string) : string :=
  match s with
  | EmptyString => EmptyString
  | String c s' => if is_space c then lstrip s' else s
  end.

Fixpoint rstrip (s : string) : string :=
  match s with
  | EmptyString => EmptyString
  | String c s' =>
      match rstrip s' with
      | EmptyString => if is_space c then EmptyString else String c EmptyString
      | r => String c r
      end
  end.

(** [s.strip()] *)
Definition strip (s : string) : string := rstrip (lstrip s).

(** Cut [s] at every byte satisfying [p]; always at least one piece. *)
Fixpoint split_on (p : ascii -> bool) (s : string) : list string :=
  match s with
  | EmptyString => [EmptyString]
  | String c s' =>
      if p c then EmptyString :: split_on p s'
      else match split_on p s' with
           | t :: ts => String c t :: ts
           | [] => [String c EmptyString]
           end
  end.

Definition nonempty (s : string) : bool :=
  match s with EmptyString => false | String _ _ => true end.

(** [s.split()]: the maximal runs of non-whitespace bytes. *)
Definition split_ws (s : string) : list string :=
  List.filter nonempty (split_on is_space s).

(** [s.split(sep)] for a one-byte separator. *)
Definition split (sep : ascii) (s : string) : list string :=
  split_on (Ascii.eqb sep) s.

(** [s.split(sep, maxsplit)] for a one-byte separator. *)
Fixpoint split_max (sep : ascii) (s : string) (maxsplit : nat) : list string :=
  match maxsplit with
  | O => [s]
  | S k =>
      match s with
      | EmptyString => [EmptyString]
      | String c s' =>
          if Ascii.eqb sep c then EmptyString :: split_max sep s' k
          else match split_max sep s' maxsplit with
               | t :: ts => String c t :: ts
               | [] => [String c EmptyString]
               end
      end
  end.

(** [s.startswith(p)] *)
Definition startswith (s p : string) : bool := String.prefix p s.

(** [sub in s] *)
Fixpoint contains (sub s : string) : bool :=
  String.prefix sub s ||
  match s with
  | EmptyString => false
  | String _ s' => contains sub s'
  end.

Definition digit_of (c : ascii) : option Z :=
  let n := nat_of_ascii c in
  if ((48 <=? n) && (n <=? 57))%nat then Some (Z.of_nat (n - 48)) else None.

Fixpoint digits_val (acc : Z) (s : string) : option Z :=
  match s with
  | EmptyString => Some acc
  | String c s' =>
      match digit_of c with
      | Some d => digits_val (10 * acc + d) s'
      | None => None
      end
  end.

Definition unsigned_val (s : string) : result Z :=
  match s with
  | EmptyString => Raise ValueError
  | _ => match digits_val 0 s with
         | Some z => Ok z
         | None => Raise ValueError
         end
  end.

(** [int(s)] on a [str], base 10: surrounding whitespace, an optional
    sign, and at least one decimal digit; [ValueError] otherwise. *)
Definition int (s : string) : result Z :=
  match strip s with
  | String "-" r => Z.opp <$> unsigned_val r
  | String "+" r => unsigned_val r
  | r => unsigned_val r
  end.

End PyStr.

(** ** The [datetime] library: dates, date-times and durations

    The proleptic Gregorian calendar of Python's [datetime] module, by
    day ordinals (0001-01-01 is day 1), following the module's reference
    algorithms. *)

Module Calendar.

Definition MINYEAR : Z := 1.
Definition MAXYEAR : Z := 9999.
Definition MAXORDINAL : Z := 3652059.

Definition DI400Y : Z := 146097.
Definition DI100Y : Z := 36524.
Definition DI4Y : Z := 1461.

Definition is_leap (year : Z) : bool :=
  (year mod 4 =? 0) && (negb (year mod 100 =? 0) || (year mod 400 =? 0)).

Definition DAYS_IN_MONTH (month : Z) : Z :=
  match month with
  | 1 => 31 | 2 => 28 | 3 => 31 | 4 => 30 | 5 => 31 | 6 => 30
  | 7 => 31 | 8 => 31 | 9 => 30 | 10 => 31 | 11 => 30 | 12 => 31
  | _ => -1
  end.

Definition DAYS_BEFORE_MONTH (month : Z) : Z :=
  match month with
  | 1 => 0 | 2 => 31 | 3 => 59 | 4 => 90 | 5 => 120 | 6 => 151
  | 7 => 181 | 8 => 212 | 9 => 243 | 10 => 273 | 11 => 304 | 12 => 334
  | _ => -1
  end.

Definition days_before_year (year : Z) : Z :=
  let y := year - 1 in
  y * 365 + y / 4 - y / 100 + y / 400.

Definition days_in_month (year month : Z) : Z :=
  if (month =? 2) && is_leap year then 29 else DAYS_IN_MONTH month.

Definition days_before_month (year month : Z) : Z :=
  DAYS_BEFORE_MONTH month + (if (2 <? month) && is_leap year then 1 else 0).

Definition ymd2ord (year month day : Z) : Z :=
  days_before_year year + days_before_month year month + day.

(** Day [n] of a year (counted from 0) as a month and a day of month. *)
Definition doy2md (leapyear : bool) (n : Z) : Z * Z :=
  let month := Z.shiftr (n + 50) 5 in
  let preceding :=
    DAYS_BEFORE_MONTH month + (if (2 <? month) && leapyear then 1 else 0) in
  if n <? preceding then
    let month' := month - 1 in
    let preceding' :=
      preceding -
      (DAYS_IN_MONTH month' + (if (month' =? 2) && leapyear then 1 else 0)) in
    (month', n - preceding' + 1)
  else (month, n - preceding + 1).

Definition ord2ymd (n : Z) : Z * Z * Z :=
  let n := n - 1 in
  let n400 := n / DI400Y in
  let n := n mod DI400Y in
  let n100 := n / DI100Y in
  let n := n mod DI100Y in
  let n4 := n / DI4Y in
  let n := n mod DI4Y in
  let n1 := n / 365 in
  let n := n mod 365 in
  let year := n400 * 400 + 1 + (n100 * 100 + n4 * 4 + n1) in
  if (n1 =? 4) || (n100 =? 4) then (year - 1, 12, 31)
  else
    let leapyear := (n1 =? 3) && (negb (n4 =? 24) || (n100 =? 3)) in
    let '(month, day) := doy2md leapyear n in
    (year, month, day).

Definition valid_date (y m d : Z) : bool :=
  (MINYEAR <=? y) && (y <=? MAXYEAR) && (1 <=? m) && (m <=? 12) &&
  (1 <=? d) && (d <=? days_in_month y m).

End Calendar.

(** A naive [datetime.datetime] (no time zone). *)
Record datetime : Type := mk_datetime {
  year : Z;
  month : Z;
  day : Z;
  hour : Z;
  minute : Z;
  second : Z;
  microsecond : Z
}.

(** A [datetime.timedelta], in its normalised form: [0 <= seconds < 86400]
    and [0 <= microseconds < 1000000]. *)
Record timedelta : Type := mk_timedelta {
  days : Z;
  seconds : Z;
  microseconds : Z
}.

Definition valid_time (h m s us : Z) : bool :=
  (0 <=? h) && (h <=? 23) && (0 <=? m) && (m <=? 59) &&
  (0 <=? s) && (s <=? 59) && (0 <=? us) && (us <=? 999999).

(** The invariant of every [datetime] object. *)
Definition valid_datetime (d : datetime) : bool :=
  Calendar.valid_date (year d) (month d) (day d) &&
  valid_time (hour d) (minute d) (second d) (microsecond d).

(** The range of a C [int]. *)
Definition fits_c_int (z : Z) : bool :=
  (-2147483648 <=? z) && (z <=? 2147483647).

(** [datetime.datetime(year, month, day, hour, minute, second)]: the
    constructor first converts its arguments to C [int]s, [OverflowError]
    when one does not fit; then it checks the fields, [ValueError] when
    one is out of range. *)
Definition datetime_new (y m d h mi s : Z) : result datetime :=
  if negb (forallb fits_c_int [y; m; d; h; mi; s]) then Raise OverflowError
  else if Calendar.valid_date y m d && valid_time h mi s 0
  then Ok (mk_datetime y m d h mi s 0)
  else Raise ValueError.

Definition MAX_DELTA_DAYS : Z := 999999999.

(** [datetime.timedelta(days, seconds, microseconds)] on integers:
    carries are propagated upwards, [OverflowError] when the number of
    days leaves [-999999999 .. 999999999]. *)
Definition timedelta_new (d s us : Z) : result timedelta :=
  let s := s + us / 1000000 in
  let us := us mod 1000000 in
  let d := d + s / 86400 in
  let s := s mod 86400 in
  if Z.abs d <=? MAX_DELTA_DAYS then Ok (mk_timedelta d s us)
  else Raise OverflowError.

Definition toordinal (d : datetime) : Z :=
  Calendar.ymd2ord (year d) (month d) (day d).

(** [self + other] for a [datetime] and a [timedelta]: [OverflowError]
    when the sum leaves 0001-01-01 .. 9999-12-31. *)
Definition dt_add (self : datetime) (other : timedelta) : result datetime :=
  delta ← timedelta_new
            (toordinal self + days other)
            (hour self * 3600 + minute self * 60 + second self + seconds other)
            (microsecond self + microseconds other);
  if (0 <? days delta) && (days delta <=? Calendar.MAXORDINAL) then
    let '(y, m, d) := Calendar.ord2ymd (days delta) in
    let h := seconds delta / 3600 in
    let rem := seconds delta mod 3600 in
    Ok (mk_datetime y m d h (rem / 60) (rem mod 60) (microseconds delta))
  else Raise OverflowError.

(** [self - other] for two [datetime]s. *)
Definition dt_sub (self other : datetime) : result timedelta :=
  timedelta_new
    (toordinal self - toordinal other)
    (second self - second other + (minute self - minute other) * 60 +
     (hour self - hour other) * 3600)
    (microsecond self - microsecond other).

Definition dt_fields (d : datetime) : list Z :=
  [year d; month d; day d; hour d; minute d; second d; microsecond d].

Fixpoint lex_compare (a b : list Z) : comparison :=
  match a, b with
  | [], [] => Eq
  | [], _ :: _ => Lt
  | _ :: _, [] => Gt
  | x :: a', y :: b' =>
      match x ?= y with
      | Eq => lex_compare a' b'
      | c => c
      end
  end.

(** [self < other] for two [datetime]s: the fields compare
    lexicographically. *)
Definition dt_lt (self other : datetime) : bool :=
  match lex_compare (dt_fields self) (dt_fields other) with
  | Lt => true
  | _ => false
  end.

(** The position of a [datetime] on the time line, in microseconds
    since the start of day 0. *)
Definition dt_abs_us (d : datetime) : Z :=
  (toordinal d * 86400 + hour d * 3600 + minute d * 60 + second d) * 1000000
  + microsecond d.

Definition td_total_us (t : timedelta) : Z :=
  (days t * 86400 + seconds t) * 1000000 + microseconds t.


(** ** Records

    The time field of a sample holds the text 'sar' printed
    ([TimeOfDay], as the tokenizers leave it) or, after [fixtime], a full
    date-time ([Timestamp]). *)

Inductive timeval : Type :=
  | TimeOfDay (s : string)
  | Timestamp (d : datetime).

(** [namedtuple('TimelogEntry', 'script stage timestamp')] *)
Record TimelogEntry : Type := mk_TimelogEntry {
  script : string;
  stage : string;
  timestamp : datetime
}.

(** [namedtuple('CPUUsage', 'time cpu puser pnice psystem piowait psteal pidle')] *)
Record CPUUsage : Type := mk_CPUUsage {
  cpu_time : timeval;
  cpu : string;
  puser : float;
  pnice : float;
  psystem : float;
  piowait : float;
  psteal : float;
  pidle : float
}.

(** [namedtuple('MemoryUsage', 'time kbmemfree kbmemused pmemused kbbuffers
    kbcached kbcommit pcommit kbactive kbinact')] *)
Record MemoryUsage : Type := mk_MemoryUsage {
  mem_time : timeval;
  kbmemfree : float;
  kbmemused : float;
  pmemused : float;
  kbbuffers : float;
  kbcached : float;
  kbcommit : float;
  pcommit : float;
  kbactive : float;
  kbinact : float
}.

(** [namedtuple('DeviceStats', 'time dev tps reads writes avgrqsz avgqusz
    await svctm putil')] *)
Record DeviceStats : Type := mk_DeviceStats {
  dev_time : timeval;
  dev : string;
  tps : float;
  reads : float;
  writes : float;
  avgrqsz : float;
  avgqusz : float;
  await : float;
  svctm : float;
  putil : float
}.

(** A row of [sar_data]: one of the three kinds of sample. *)
Inductive sample : Type :=
  | Cpu (r : CPUUsage)
  | Mem (r : MemoryUsage)
  | Dev (r : DeviceStats).

(** [x[0]], which is [x.time] for the three kinds. *)
Definition time (x : sample) : timeval :=
  match x with
  | Cpu r => cpu_time r
  | Mem r => mem_time r
  | Dev r => dev_time r
  end.

(** [x._replace(time=t)]: a new tuple, the other fields copied. *)
Definition replace_time (x : sample) (t : timeval) : sample :=
  match x with
  | Cpu r =>
      Cpu (mk_CPUUsage t (cpu r) (puser r) (pnice r) (psystem r) (piowait r)
             (psteal r) (pidle r))
  | Mem r =>
      Mem (mk_MemoryUsage t (kbmemfree r) (kbmemused r) (pmemused r)
             (kbbuffers r) (kbcached r) (kbcommit r) (pcommit r) (kbactive r)
             (kbinact r))
  | Dev r =>
      Dev (mk_DeviceStats t (dev r) (tps r) (reads r) (writes r) (avgrqsz r)
             (avgqusz r) (await r) (svctm r) (putil r))
  end.

(** The values a tuple position can hold. *)
Inductive pyval : Type :=
  | VStr (s : string)
  | VFloat (f : float)
  | VTime (t : timeval).

(** The name of the tuple type of a sample. *)
Definition typename (x : sample) : string :=
  match x with
  | Cpu _ => "CPUUsage"
  | Mem _ => "MemoryUsage"
  | Dev _ => "DeviceStats"
  end.

(** [tuple(x)]: the fields of a sample by position. *)
Definition astuple (x : sample) : list pyval :=
  match x with
  | Cpu r =>
      [VTime (cpu_time r); VStr (cpu r); VFloat (puser r); VFloat (pnice r);
       VFloat (psystem r); VFloat (piowait r); VFloat (psteal r);
       VFloat (pidle r)]
  | Mem r =>
      [VTime (mem_time r); VFloat (kbmemfree r); VFloat (kbmemused r);
       VFloat (pmemused r); VFloat (kbbuffers r); VFloat (kbcached r);
       VFloat (kbcommit r); VFloat (pcommit r); VFloat (kbactive r);
       VFloat (kbinact r)]
  | Dev r =>
      [VTime (dev_time r); VStr (dev r); VFloat (tps r); VFloat (reads r);
       VFloat (writes r); VFloat (avgrqsz r); VFloat (avgqusz r);
       VFloat (await r); VFloat (svctm r); VFloat (putil r)]
  end.

(** ** [parse_sartime]

    [t.split(' ')] exists on a [str] only: on a date-time the attribute
    lookup fails. *)

(** [hour, minute, second = l] unpacks exactly three items. *)
Definition unpack3 {A} (l : list A) : result (A * A * A) :=
  match l with
  | [a; b; c] => Ok (a, b, c)
  | _ => Raise ValueError
  end.

Definition parse_sartime (t : timeval) : result (Z * Z * Z) :=
  match t with
  | Timestamp _ => Raise AttributeError
  | TimeOfDay t =>
      t ← py_index (PyStr.split " " t) 0;
      '(hour, minute, second) ← unpack3 (PyStr.split ":" t);
      h ← PyStr.int hour;
      m ← PyStr.int minute;
      s ← PyStr.int second;
      Ok (h, m, s)
  end.

(** ** [get_sar_start_time] *)

Definition get_sar_start_time (sar_data : list sample)
    (timelog_timestamp : datetime) : result datetime :=
  x ← py_index sar_data 0;
  let sar_time := time x in
  '(_, minute, second) ← parse_sartime sar_time;
  datetime_new (year timelog_timestamp) (month timelog_timestamp)
               (day timelog_timestamp) (hour timelog_timestamp)
               minute second.

(** ** [make_timediff] *)

Definition make_timediff (sar_data : list sample) : result Z :=
  x0 ← py_index sar_data 0;
  t1 ← parse_sartime (time x0);
  x1 ← py_index sar_data 1;
  t2 ← parse_sartime (time x1);
  let '(h1, m1, s1) := t1 in
  let '(h2, m2, s2) := t2 in
  _ ← py_assert (h1 =? h2) None;
  let secdiff := (m2 - m1) * 60 + s2 - s1 in
  Ok secdiff.

(** ** [fixtime] *)

(** The [for x in sar_data] loop, with its two variables [currentime]
    and [sar_data2]. *)
Fixpoint fixtime_loop (sar_data : list sample) (delta : timedelta)
    (currentime : datetime) (sar_data2 : list sample) : result (list sample) :=
  match sar_data with
  | [] => Ok sar_data2
  | x :: rest =>
      let sar_data2 := sar_data2 ++ [replace_time x (Timestamp currentime)] in
      currentime ← dt_add currentime delta;
      fixtime_loop rest delta currentime sar_data2
  end.

Definition fixtime (sar_data : list sample) (start : datetime) (secdiff : Z)
    : result (list sample) :=
  delta ← timedelta_new 0 secdiff 0;
  fixtime_loop sar_data delta start [].

(** ** [fixtime] on the object store

    Lists are mutable objects and [sar_data] is shared with the caller:
    the store maps an address to the object it holds, a list object
    holds the addresses of its items. [fixtime_store] is [fixtime] with
    every allocation, read and update of the store written out; it
    returns the final store with the address of the new list or with the
    exception. The [for] loop asks the list object for item [i] at each
    turn, as a list iterator does; [fuel] bounds the number of turns. *)

Abbreviation loc := nat (only parsing).

Inductive obj : Type :=
  | OList (items : list loc)
  | OTuple (x : sample).

Abbreviation store := (list obj) (only parsing).

(** A new object, at a fresh address. *)
Definition alloc (h : store) (o : obj) : store * loc :=
  (h ++ [o], length h).

(** [l.append(v)]: the list object at [l] is updated in place. *)
Definition list_append (h : store) (l v : loc) : store :=
  match h !! l with
  | Some (OList items) => <[l := OList (items ++ [v])]> h
  | _ => h
  end.

Fixpoint fixtime_store_loop (fuel : nat) (h : store) (sar_data : loc)
    (i : nat) (delta : timedelta) (currentime : datetime) (sar_data2 : loc)
    : option (store * result unit) :=
  match fuel with
  | O => None
  | S fuel' =>
      match h !! sar_data with
      | Some (OList items) =>
          match items !! i with
          | None => Some (h, Ok tt)
          | Some lx =>
              match h !! lx with
              | Some (OTuple x) =>
                  let '(h, ly) :=
                    alloc h (OTuple (replace_time x (Timestamp currentime))) in
                  let h := list_append h sar_data2 ly in
                  match dt_add currentime delta with
                  | Ok currentime =>
                      fixtime_store_loop fuel' h sar_data (S i) delta
                                         currentime sar_data2
                  | Raise e => Some (h, Raise e)
                  end
              | _ => Some (h, Raise AttributeError)
              end
          end
      | _ => Some (h, Raise TypeError)
      end
  end.

Definition fixtime_store (fuel : nat) (h : store) (sar_data : loc)
    (start : datetime) (secdiff : Z) : option (store * result loc) :=
  match timedelta_new 0 secdiff 0 with
  | Raise e => Some (h, Raise e)
  | Ok delta =>
      let '(h, sar_data2) := alloc h (OList []) in
      match fixtime_store_loop fuel h sar_data 0 delta start sar_data2 with
      | Some (h, Ok _) => Some (h, Ok sar_data2)
      | Some (h, Raise e) => Some (h, Raise e)
      | None => None
      end
  end.

(** The list object at [l] holds the samples [xs]. *)
Definition list_in_store (h : store) (l : loc) (xs : list sample) : Prop :=
  exists items,
    h !! l = Some (OList items) /\
    Forall2 (fun lx x => h !! lx = Some (OTuple x)) items xs.

(** The store while [fixtime] runs: the caller's store [h], then the new
    list, then the new tuples. *)
Definition store_with (h : store) (ys : list sample) : store :=
  h ++ OList (seq (S (length h)) (length ys)) :: (OTuple <$> ys).

(** Two samples of the same type that agree on every field but
    [time], the first one. *)
Definition same_but_time (x y : sample) : Prop :=
  typename y = typename x /\ tail (astuple y) = tail (astuple x).

(** ** Line tokenizers

    Two library functions are parameters of the tokenizers: the
    conversion of a numeric literal to a binary64 and the date-time
    reader. *)

(** The loop [for n, line in enumerate(f)] over an accumulator [parsed]:
    the body skips the line ([continue], [None]), appends a record
    ([Some]) or raises. *)
Fixpoint for_lines {A} (body : nat -> string -> result (option A))
    (n : nat) (lines : list string) (parsed : list A) : result (list A) :=
  match lines with
  | [] => Ok parsed
  | line :: rest =>
      r ← body n line;
      for_lines body (S n) rest
        (match r with Some t => parsed ++ [t] | None => parsed end)
  end.

(** [[f(x) for x in l]]: the items are converted in order, up to the
    first one that raises. *)
Fixpoint map_result {A B} (f : A -> result B) (l : list A) : result (list B) :=
  match l with
  | [] => Ok []
  | x :: l' =>
      y ← f x;
      ys ← map_result f l';
      Ok (y :: ys)
  end.

(** [line[0] + ' ' + line[1]] *)
Definition join_time (a b : string) : string :=
  String.append a (String.append " " b).

Section Tokenizers.

(** [float(x)] on a [str]; [ValueError] when [x] is no float literal. *)
Variable py_float : string -> result float.

(** [datetime.datetime.strptime(s, format)]; [ValueError] when [s] does
    not match [format]. *)
Variable strptime : string -> string -> result datetime.

(** [typ(script, stage, tstamp)] is applied to three arguments. *)
Definition timelog_line (n : nat) (line : string) : result (option TimelogEntry) :=
  '(script, stage, tstamp) ← unpack3 (PyStr.split_max " " (PyStr.strip line) 2);
  tstamp ← strptime tstamp "%a %b %d %H:%M:%S %Z %Y";
  Ok (Some (mk_TimelogEntry script stage tstamp)).

Definition parse_timelog (lines : list string)
    : result (gmap string string * list TimelogEntry) :=
  let d : gmap string string := ∅ in
  parsed ← for_lines timelog_line 0 lines [];
  Ok (d, parsed).

(** [typ] applied to the unpacked list [line2], for the three kinds of
    sample: [TypeError] when the number of arguments is not the number of
    fields. *)
Definition CPUUsage_star (t c : string) (fs : list float) : result CPUUsage :=
  match fs with
  | [f1; f2; f3; f4; f5; f6] =>
      Ok (mk_CPUUsage (TimeOfDay t) c f1 f2 f3 f4 f5 f6)
  | _ => Raise TypeError
  end.

Definition MemoryUsage_star (t : string) (fs : list float) : result MemoryUsage :=
  match fs with
  | [f1; f2; f3; f4; f5; f6; f7; f8; f9] =>
      Ok (mk_MemoryUsage (TimeOfDay t) f1 f2 f3 f4 f5 f6 f7 f8 f9)
  | _ => Raise TypeError
  end.

Definition DeviceStats_star (t d : string) (fs : list float) : result DeviceStats :=
  match fs with
  | [f1; f2; f3; f4; f5; f6; f7; f8] =>
      Ok (mk_DeviceStats (TimeOfDay t) d f1 f2 f3 f4 f5 f6 f7 f8)
  | _ => Raise TypeError
  end.

Definition cpu_line (n : nat) (line : string) : result (option CPUUsage) :=
  if negb (PyStr.nonempty (PyStr.strip line)) then Ok None
  else if (n <? 3)%nat then Ok None
  else if PyStr.startswith line "Average" then Ok None
  else if PyStr.contains "%user" line then Ok None
  else
    let line := PyStr.split_ws (PyStr.strip line) in
    _ ← py_assert (length line =? 9)%nat (Some (Z.of_nat (length line)));
    l0 ← py_index line 0;
    l1 ← py_index line 1;
    l2 ← py_index line 2;
    fs ← map_result py_float (drop 3 line);
    t ← CPUUsage_star (join_time l0 l1) l2 fs;
    Ok (Some t).

Definition parse_sar_cpu (lines : list string) : result (list CPUUsage) :=
  for_lines cpu_line 0 lines [].

Definition ram_line (n : nat) (line : string) : result (option MemoryUsage) :=
  if negb (PyStr.nonempty (PyStr.strip line)) then Ok None
  else if (n <? 3)%nat then Ok None
  else if PyStr.startswith line "Average" then Ok None
  else if PyStr.contains "kbmemfree" line then Ok None
  else
    let line := PyStr.split_ws (PyStr.strip line) in
    _ ← py_assert (11 <=? length line)%nat (Some (Z.of_nat (length line)));
    l0 ← py_index line 0;
    l1 ← py_index line 1;
    fs ← map_result py_float (take (11 - 2) (drop 2 line));
    t ← MemoryUsage_star (join_time l0 l1) fs;
    Ok (Some t).

Definition parse_sar_ram (lines : list string) : result (list MemoryUsage) :=
  for_lines ram_line 0 lines [].

Definition disk_line (device : string) (n : nat) (line : string)
    : result (option DeviceStats) :=
  if (n <? 3)%nat then Ok None
  else if PyStr.startswith line "Average" then Ok None
  else if negb (PyStr.nonempty (PyStr.strip line)) then Ok None
  else
    let line := PyStr.split_ws (PyStr.strip line) in
    l2 ← py_index line 2;
    if negb (String.eqb l2 device) then Ok None
    else
      _ ← py_assert (length line =? 11)%nat (Some (Z.of_nat (length line)));
      l0 ← py_index line 0;
      l1 ← py_index line 1;
      l2 ← py_index line 2;
      fs ← map_result py_float (drop 3 line);
      t ← DeviceStats_star (join_time l0 l1) l2 fs;
      Ok (Some t).

Definition parse_sar_disk (lines : list string) (device : string)
    : result (list DeviceStats) :=
  for_lines (disk_line device) 0 lines [].

End Tokenizers.

(** ** Definitions of the statements *)

(** What [Calendar.doy2md] must satisfy at day [n] of a year. *)
Definition doy_ok (leap : bool) (n : Z) : bool :=
  let '(m, d) := Calendar.doy2md leap n in
  (1 <=? m) && (m <=? 12) && (1 <=? d) &&
  (d <=? Calendar.DAYS_IN_MONTH m + (if (m =? 2) && leap then 1 else 0)) &&
  (Calendar.DAYS_BEFORE_MONTH m + (if (2 <? m) && leap then 1 else 0) + d
   =? n + 1).

Definition US_PER_DAY : Z := 86400000000.

(** The date-time at a position of the time line: the inverse of
    [dt_abs_us]. *)
Definition dt_of_abs_us (T : Z) : datetime :=
  let '(y, m, d) := Calendar.ord2ymd (T / US_PER_DAY) in
  let s := T mod US_PER_DAY / 1000000 in
  mk_datetime y m d (s / 3600) (s mod 3600 / 60) (s mod 3600 mod 60)
              (T mod US_PER_DAY mod 1000000).

(** The positions of the instants from 0001-01-01 00:00:00 to
    9999-12-31 23:59:59.999999. *)
Definition abs_in_range (T : Z) : bool :=
  (US_PER_DAY <=? T) && (T <? (Calendar.MAXORDINAL + 1) * US_PER_DAY).

(** [start + datetime.timedelta(0, k)] *)
Definition start_plus (start : datetime) (k : Z) : result datetime :=
  delta ← timedelta_new 0 k 0;
  dt_add start delta.

(** Neither [datetime.timedelta(0, secdiff)] nor
    [start + datetime.timedelta(0, n * secdiff)] overflows. *)
Definition fixtime_in_range (start : datetime) (secdiff : Z) (n : nat) : bool :=
  is_ok (timedelta_new 0 secdiff 0) &&
  is_ok (start_plus start (Z.of_nat n * secdiff)).

(** The date-time [i] steps of [step] microseconds after [start]. *)
Definition time_at (start : datetime) (step : Z) (i : nat) : datetime :=
  dt_of_abs_us (dt_abs_us start + Z.of_nat i * step).

(** The lines [parse_sar_disk] tokenizes: past the three header lines,
    not starting with 'Average', not blank. *)
Definition is_data_row (n : nat) (line : string) : bool :=
  negb (n <? 3)%nat && negb (PyStr.startswith line "Average") &&
  PyStr.nonempty (PyStr.strip line).

(** The lines [parse_sar_ram] tokenizes. *)
Definition is_ram_row (n : nat) (line : string) : bool :=
  PyStr.nonempty (PyStr.strip line) && negb (n <? 3)%nat &&
  negb (PyStr.startswith line "Average") &&
  negb (PyStr.contains "kbmemfree" line).

(** [line.strip().split()] *)
Definition fields_of (line : string) : list string :=
  PyStr.split_ws (PyStr.strip line).

Fixpoint count_rows (q : nat -> string -> bool) (n : nat) (lines : list string)
    : nat :=
  match lines with
  | [] => 0
  | line :: rest => (if q n line then 1 else 0) + count_rows q (S n) rest
  end.

(** The nine numeric fields of a memory sample, in order. *)
Definition mem_numbers (r : MemoryUsage) : list float :=
  [kbmemfree r; kbmemused r; pmemused r; kbbuffers r; kbcached r;
   kbcommit r; pcommit r; kbactive r; kbinact r].

(** ** Instances of the library parameters, for the examples

    [short_decimal] reads a decimal literal of at most 15 digits,
    [[+-]digits[.digits]], on which it agrees with [float]: the literal
    is [m / 10^k] for two integers below [2^53], and one correctly rounded
    division yields the nearest binary64. It rejects every other
    literal. *)

Definition float_of_Z (z : Z) : float := PrimFloat.of_uint63 (Uint63.of_Z z).

Definition short_decimal_abs (s : string) : result float :=
  match PyStr.split "." s with
  | [ip] =>
      m ← PyStr.unsigned_val ip;
      if (String.length ip <=? 15)%nat then Ok (float_of_Z m)
      else Raise ValueError
  | [ip; fp] =>
      m ← PyStr.unsigned_val (String.append ip fp);
      _ ← PyStr.unsigned_val ip;
      _ ← PyStr.unsigned_val fp;
      if (String.length ip + String.length fp <=? 15)%nat
      then Ok (float_of_Z m / float_of_Z (10 ^ Z.of_nat (String.length fp)))%float
      else Raise ValueError
  | _ => Raise ValueError
  end.

Definition short_decimal (s : string) : result float :=
  match s with
  | String "-" r => PrimFloat.opp <$> short_decimal_abs r
  | String "+" r => short_decimal_abs r
  | _ => short_decimal_abs s
  end.

Definition month_of_abbrev (s : string) : result Z :=
  match list_find (String.eqb s)
          ["Jan"; "Feb"; "Mar"; "Apr"; "May"; "Jun";
           "Jul"; "Aug"; "Sep"; "Oct"; "Nov"; "Dec"] with
  | Some (i, _) => Ok (Z.of_nat i + 1)
  | None => Raise ValueError
  end.

Definition is_weekday_abbrev (s : string) : bool :=
  existsb (String.eqb s) ["Mon"; "Tue"; "Wed"; "Thu"; "Fri"; "Sat"; "Sun"].

(** [canonical_strptime] reads the stamps the timelog holds as [date]
    prints them in the C locale, 'Mon Jan 02 15:04:05 UTC 2024', for the
    one format [parse_timelog] uses; it rejects every other stamp. *)
Definition canonical_strptime (s format : string) : result datetime :=
  if negb (String.eqb format "%a %b %d %H:%M:%S %Z %Y") then Raise ValueError
  else
    match PyStr.split " " s with
    | [a; b; d; hms; z; y] =>
        if negb (is_weekday_abbrev a) then Raise ValueError
        else if negb (existsb (String.eqb z) ["UTC"; "GMT"]) then Raise ValueError
        else
          mo ← month_of_abbrev b;
          dd ← PyStr.unsigned_val d;
          '(h, mi, se) ← unpack3 (PyStr.split ":" hms);
          h ← PyStr.unsigned_val h;
          mi ← PyStr.unsigned_val mi;
          se ← PyStr.unsigned_val se;
          yy ← PyStr.unsigned_val y;
          match datetime_new yy mo dd h mi se with
          | Ok t => Ok t
          | Raise _ => Raise ValueError
          end
    | _ => Raise ValueError
    end.

(** ** Sample data of the examples *)

Definition cpu_row (t : string) (user idle : float) : sample :=
  Cpu (mk_CPUUsage (TimeOfDay t) "all" user 0 2 0 0 idle).

Definition two_rows : list sample :=
  [cpu_row "09:40:03 PM" 1 97; cpu_row "09:40:13 PM" 3 95].

Definition two_rows_reversed : list sample :=
  [cpu_row "09:40:13 PM" 3 95; cpu_row "09:40:03 PM" 1 97].

Definition rows_across_hours : list sample :=
  [cpu_row "09:59:55 PM" 1 97; cpu_row "10:00:05 PM" 3 95].

Definition row_minute_75 : list sample := [cpu_row "09:75:00 PM" 1 97].

(** 2024-01-02 15:04:05 *)
Definition timelog_start : datetime := mk_datetime 2024 1 2 15 4 5 0.

(** [datetime.datetime.max], without its microseconds *)
Definition last_second : datetime := mk_datetime 9999 12 31 23 59 59 0.

Definition cpu_report : list string :=
  ["Linux 3.2.0 (host)  01/02/2024  _x86_64_  (4 CPU)";
   "";
   "09:39:53 PM     CPU     %user     %nice   %system   %iowait    %steal     %idle";
   "09:40:03 PM     all      1.0       0.0       2.0       0.0       0.0      97.0";
   "09:40:13 PM     all      3.0       0.0       2.0       0.0       0.0      95.0";
   "Average:        all      2.0       0.0       2.0       0.0       0.0      96.0"].

Definition disk_report : list string :=
  ["Linux 3.2.0 (host)  01/02/2024  _x86_64_  (4 CPU)";
   "";
   "06:21:38 PM       DEV       tps  rd_sec/s  wr_sec/s  avgrq-sz  avgqu-sz     await     svctm     %util";
   "06:21:48 PM       sda      1.50      0.00     24.00     16.00      0.01      4.00      2.00      0.30";
   "06:21:48 PM       sdb      0.00      0.00      0.00      0.00      0.00      0.00      0.00      0.00";
   "06:21:58 PM       sda      2.00      8.00     16.00     12.00      0.00      1.00      1.00      0.20";
   "Average:          sda      1.75      4.00     20.00     14.00      0.00      2.50      1.50      0.25"].

(** A report whose only data line names another device and has four
    fields. *)
Definition disk_report_short_other : list string :=
  ["Linux 3.2.0 (host)  01/02/2024  _x86_64_  (4 CPU)";
   "";
   "06:21:38 PM       DEV       tps  rd_sec/s  wr_sec/s  avgrq-sz  avgqu-sz     await     svctm     %util";
   "06:21:48 PM       sdb      0.00"].

(** A report whose only data line names the device and has four fields. *)
Definition disk_report_short_same : list string :=
  ["Linux 3.2.0 (host)  01/02/2024  _x86_64_  (4 CPU)";
   "";
   "06:21:38 PM       DEV       tps  rd_sec/s  wr_sec/s  avgrq-sz  avgqu-sz     await     svctm     %util";
   "06:21:48 PM       sda      0.00"].

(** A memory row of eleven fields, as 'sar -r' prints it without the
    kbdirty column. *)
Definition ram_row_11 : string :=
  "09:40:13 PM   1000   2000   66.5   30   40   50   7.5   80   90".

(** The row with a twelfth field, the kbdirty column. *)
Definition ram_row_12 : string :=
  "09:40:13 PM   1000   2000   66.5   30   40   50   7.5   80   90   12".

Definition ram_report : list string :=
  ["Linux 3.2.0 (host)  01/02/2024  _x86_64_  (4 CPU)";
   "";
   "09:40:03 PM kbmemfree kbmemused  %memused kbbuffers  kbcached  kbcommit   %commit kbactive   kbinact";
   ram_row_11].

(** Ten seconds before the end of the last day. *)
Definition last_ten_seconds : datetime := mk_datetime 9999 12 31 23 59 50 0.

Definition row_garbage : list sample := [cpu_row "garbage" 1 97].

(** A store holding the two rows of [two_rows] and, at address 2, their
    list. *)
Definition two_rows_store : store :=
  [OTuple (cpu_row "09:40:03 PM" 1 97); OTuple (cpu_row "09:40:13 PM" 3 95);
   OList [0%nat; 1%nat]].

Definition timelog_file : list string :=
  ["build compile Mon Jan 02 15:04:05 UTC 2024";
   "build link Mon Jan 02 15:09:30 UTC 2024"].

(** ** Definitions of the further statements *)

(** Every byte of [s] satisfies [q]. *)
Fixpoint string_forallb (q : ascii -> bool) (s : string) : bool :=
  match s with
  | EmptyString => true
  | String c s' => q c && string_forallb q s'
  end.

(** [s] holds no byte [c]. *)
Definition lacks (c : ascii) (s : string) : bool :=
  string_forallb (fun x => negb (Ascii.eqb c x)) s.

(** [s.count(c)] *)
Fixpoint count_char (c : ascii) (s : string) : nat :=
  match s with
  | EmptyString => 0
  | String x s' => (if Ascii.eqb c x then 1 else 0) + count_char c s'
  end.

(** ['%02d' % n] for [0 <= n < 100] *)
Definition two_digits (n : Z) : string :=
  String (ascii_of_nat (48 + Z.to_nat (n / 10)))
    (String (ascii_of_nat (48 + Z.to_nat (n mod 10))) EmptyString).

(** The clock time 'sar' prints, ['%02d:%02d:%02d']. *)
Definition sar_clock (h m s : Z) : string :=
  String.append (two_digits h)
    (String ":" (String.append (two_digits m) (String ":" (two_digits s)))).

(** The lines each tokenizer passes over once the header is behind. *)
Definition cpu_skips (line : string) : bool :=
  negb (PyStr.nonempty (PyStr.strip line)) ||
  PyStr.startswith line "Average" || PyStr.contains "%user" line.

Definition ram_skips (line : string) : bool :=
  negb (PyStr.nonempty (PyStr.strip line)) ||
  PyStr.startswith line "Average" || PyStr.contains "kbmemfree" line.

Definition disk_skips (line : string) : bool :=
  PyStr.startswith line "Average" ||
  negb (PyStr.nonempty (PyStr.strip line)).

(** The lines [parse_sar_cpu] tokenizes. *)
Definition is_cpu_row (n : nat) (line : string) : bool :=
  negb (n <? 3)%nat && negb (cpu_skips line).

(** The records of a list of per-line results, in order. *)
Definition kept {A} (rs : list (option A)) : list A := omap id rs.

(** What [two_digits] must satisfy at [n]: [int] reads it back and it
    holds neither a colon nor a space. *)
Definition two_digits_ok (n : Z) : bool :=
  match PyStr.int (two_digits n) with
  | Ok z => z =? n
  | Raise _ => false
  end && lacks ":" (two_digits n) && lacks " " (two_digits n).

(** The rows of [two_rows] with other texts in their time fields. *)
Definition two_rows_other_times : list sample :=
  [cpu_row "11:11:11 AM" 1 97; cpu_row "garbage" 3 95].

(** The six percentages of a CPU sample, in order. *)
Definition cpu_numbers (r : CPUUsage) : list float :=
  [puser r; pnice r; psystem r; piowait r; psteal r; pidle r].

(** The eight numbers of a disk sample, in order. *)
Definition disk_numbers (r : DeviceStats) : list float :=
  [tps r; reads r; writes r; avgrqsz r; avgqusz r; await r; svctm r; putil r].

(** A CPU record and the line it was read from: nine fields, the time
    from the first two, the processor from the third, the percentages
    from the last six. *)
Definition cpu_record_of (py_float : string -> result float)
    (line : string) (r : CPUUsage) : Prop :=
  exists f0 f1 f2 rest,
    fields_of line = f0 :: f1 :: f2 :: rest /\ length rest = 6%nat /\
    cpu_time r = TimeOfDay (join_time f0 f1) /\ cpu r = f2 /\
    map_result py_float rest = Ok (cpu_numbers r).

(** A disk record and the line it was read from: eleven fields, the
    time from the first two, the device from the third, the numbers from
    the last eight. *)
Definition disk_record_of (py_float : string -> result float)
    (line : string) (r : DeviceStats) : Prop :=
  exists f0 f1 f2 rest,
    fields_of line = f0 :: f1 :: f2 :: rest /\ length rest = 8%nat /\
    dev_time r = TimeOfDay (join_time f0 f1) /\ dev r = f2 /\
    map_result py_float rest = Ok (disk_numbers r).

(** A timelog entry and the line it was read from: the stripped line is
    the script, a space, the stage, a space and a stamp that [strptime]
    reads as the time of the entry; script and stage hold no space. *)
Definition timelog_entry_of (strptime : string -> string -> result datetime)
    (line : string) (e : TimelogEntry) : Prop :=
  exists tstamp,
    PyStr.strip line =
      script e +:+ String " " (stage e +:+ String " " tstamp) /\
    lacks " " (script e) = true /\ lacks " " (stage e) = true /\
    strptime tstamp "%a %b %d %H:%M:%S %Z %Y" = Ok (timestamp e).

Definition cpu_report_short_row : list string :=
  take 3 cpu_report ++ ["09:40:03 PM     all      1.0"].

Definition ram_report_short_row : list string :=
  take 3 ram_report ++ ["09:40:13 PM   1000   2000   66.5"].

Definition disk_report_time_only : list string :=
  take 3 disk_report ++ ["06:21:48 PM"].

Definition timelog_file_blank_line : list string :=
  ["build compile Mon Jan 02 15:04:05 UTC 2024"; ""].

(** * Properties *)

(** ** Sanity checks of the library model *)

Example parse_sartime_pm : parse_sartime (TimeOfDay "06:21:38 PM") = Ok (6, 21, 38).
Proof. reflexivity. Qed.

Example parse_sartime_short : parse_sartime (TimeOfDay "06:21 PM") = Raise ValueError.
Proof. reflexivity. Qed.

Example split_ws_row :
  PyStr.split_ws (String.append " 09:40:03 PM  all   1.0 " (String "010" "")) =
  ["09:40:03"; "PM"; "all"; "1.0"].
Proof. reflexivity. Qed.

Example strip_examples :
  PyStr.strip (String.append "  a b " (String "010" "")) = "a b" /\
  PyStr.strip "   " = "" /\
  PyStr.split ":" "06:21:38" = ["06"; "21"; "38"] /\
  PyStr.split " " "a  b" = ["a"; ""; "b"] /\
  PyStr.contains "%user" "09:40:03 PM  CPU  %user  %nice" = true.
Proof. repeat split; reflexivity. Qed.

Example int_examples :
  PyStr.int " 12 " = Ok 12 /\
  PyStr.int "-5" = Ok (-5) /\
  PyStr.int "+07" = Ok 7 /\
  PyStr.int "" = Raise ValueError /\
  PyStr.int "1 2" = Raise ValueError /\
  PyStr.int "- 5" = Raise ValueError /\
  PyStr.int "4O" = Raise ValueError.
Proof. repeat split; reflexivity. Qed.

Example split_max_timelog :
  PyStr.split_max " " "build compile Mon Jan 02 15:04:05 UTC 2024" 2 =
  ["build"; "compile"; "Mon Jan 02 15:04:05 UTC 2024"].
Proof. reflexivity. Qed.

Example ymd2ord_2024 : Calendar.ymd2ord 2024 1 2 = 738887.
Proof. reflexivity. Qed.

Example ord2ymd_2024 : Calendar.ord2ymd 738887 = (2024, 1, 2).
Proof. reflexivity. Qed.

Example ord2ymd_max : Calendar.ord2ymd Calendar.MAXORDINAL = (9999, 12, 31).
Proof. reflexivity. Qed.

Example ord2ymd_leap : Calendar.ord2ymd (Calendar.ymd2ord 2024 2 29) = (2024, 2, 29).
Proof. reflexivity. Qed.

Example ord2ymd_2000 : Calendar.ord2ymd (Calendar.ymd2ord 2000 12 31) = (2000, 12, 31).
Proof. reflexivity. Qed.

Example dt_add_rollover :
  (td ← timedelta_new 0 10 0;
   dt_add (mk_datetime 2023 12 31 23 59 55 0) td)
  = Ok (mk_datetime 2024 1 1 0 0 5 0).
Proof. reflexivity. Qed.

Example dt_add_overflow :
  (td ← timedelta_new 0 1 0;
   dt_add (mk_datetime 9999 12 31 23 59 59 0) td)
  = Raise OverflowError.
Proof. reflexivity. Qed.

(** ** The calendar *)

Module CalendarFacts.
Import Calendar.

Lemma forallb_range (P : Z -> bool) (k : nat) :
  forallb P (map Z.of_nat (seq 0 k)) = true ->
  forall n, 0 <= n < Z.of_nat k -> P n = true.
Proof.
  intros H n Hn.
  rewrite forallb_forall in H. apply H.
  apply in_map_iff. exists (Z.to_nat n). split; [lia|].
  apply in_seq. lia.
Qed.

Lemma doy_ok_common n : 0 <= n < 365 -> doy_ok false n = true.
Proof. apply (forallb_range (doy_ok false) 365). vm_compute. reflexivity. Qed.

Lemma doy_ok_leap n : 0 <= n < 366 -> doy_ok true n = true.
Proof. apply (forallb_range (doy_ok true) 366). vm_compute. reflexivity. Qed.

Lemma doy_ok_all (leap : bool) n :
  0 <= n < 365 + (if leap then 1 else 0) -> doy_ok leap n = true.
Proof.
  destruct leap; intros H; [apply doy_ok_leap | apply doy_ok_common]; lia.
Qed.

(** A year number by its position in the 400-, 100- and 4-year cycles. *)
Lemma days_before_year_cycles a b c e :
  0 <= b <= 3 -> 0 <= c <= 24 -> 0 <= e <= 3 ->
  days_before_year (a * 400 + 1 + (b * 100 + c * 4 + e)) =
  a * DI400Y + b * DI100Y + c * DI4Y + e * 365.
Proof.
  intros Hb Hc He. unfold days_before_year, DI400Y, DI100Y, DI4Y.
  replace (a * 400 + 1 + (b * 100 + c * 4 + e) - 1)
    with (a * 400 + b * 100 + c * 4 + e) by lia.
  assert ((a * 400 + b * 100 + c * 4 + e) / 4 = a * 100 + b * 25 + c)
    by (symmetry; apply (Z.div_unique _ 4 _ e); lia).
  assert ((a * 400 + b * 100 + c * 4 + e) / 100 = a * 4 + b)
    by (symmetry; apply (Z.div_unique _ 100 _ (c * 4 + e)); lia).
  assert ((a * 400 + b * 100 + c * 4 + e) / 400 = a)
    by (symmetry; apply (Z.div_unique _ 400 _ (b * 100 + c * 4 + e)); lia).
  lia.
Qed.

Lemma is_leap_cycles a b c e :
  0 <= b <= 3 -> 0 <= c <= 24 -> 0 <= e <= 3 ->
  is_leap (a * 400 + 1 + (b * 100 + c * 4 + e)) =
  (e =? 3) && (negb (c =? 24) || (b =? 3)).
Proof.
  intros Hb Hc He. unfold is_leap.
  set (y := a * 400 + 1 + (b * 100 + c * 4 + e)).
  assert (H4 : y mod 4 = (e + 1) mod 4).
  { unfold y. replace (a * 400 + 1 + (b * 100 + c * 4 + e))
      with ((e + 1) + (a * 100 + b * 25 + c) * 4) by lia.
    apply Z.mod_add. lia. }
  assert (H100 : y mod 100 = (c * 4 + e + 1) mod 100).
  { unfold y. replace (a * 400 + 1 + (b * 100 + c * 4 + e))
      with ((c * 4 + e + 1) + (a * 4 + b) * 100) by lia.
    apply Z.mod_add. lia. }
  assert (H400 : y mod 400 = (b * 100 + c * 4 + e + 1) mod 400).
  { unfold y. replace (a * 400 + 1 + (b * 100 + c * 4 + e))
      with ((b * 100 + c * 4 + e + 1) + a * 400) by lia.
    apply Z.mod_add. lia. }
  rewrite H4, H100, H400.
  assert (e = 0 \/ e = 1 \/ e = 2 \/ e = 3) as [-> | [-> | [-> | ->]]] by lia;
    try reflexivity.
  destruct (Z.eqb_spec c 24) as [-> | Hc24].
  - assert (b = 0 \/ b = 1 \/ b = 2 \/ b = 3) as [-> | [-> | [-> | ->]]] by lia;
      reflexivity.
  - replace ((3 + 1) mod 4 =? 0) with true by reflexivity.
    simpl negb. rewrite !andb_true_l, orb_true_l.
    rewrite (Z.mod_small (c * 4 + 3 + 1) 100) by lia.
    destruct (Z.eqb_spec (c * 4 + 3 + 1) 0); [lia | reflexivity].
Qed.

Lemma divmod_facts (x k : Z) :
  0 < k -> x = k * (x / k) + x mod k /\ 0 <= x mod k < k.
Proof.
  intros Hk. split; [apply Z.div_mod; lia | apply Z.mod_pos_bound; lia].
Qed.

(** [ord2ymd] yields a valid date and [ymd2ord] is its inverse on the
    ordinals of the years 1 to 9999. *)
Lemma ord2ymd_spec n y m d :
  1 <= n <= MAXORDINAL ->
  ord2ymd n = (y, m, d) ->
  valid_date y m d = true /\ ymd2ord y m d = n.
Proof.
  unfold MAXORDINAL, ord2ymd. intros Hn.
  set (N := n - 1).
  destruct (divmod_facts N DI400Y) as [Ea Ra]; [reflexivity|].
  set (a := N / DI400Y) in *. set (r400 := N mod DI400Y) in *.
  destruct (divmod_facts r400 DI100Y) as [Eb Rb]; [reflexivity|].
  set (b := r400 / DI100Y) in *. set (r100 := r400 mod DI100Y) in *.
  destruct (divmod_facts r100 DI4Y) as [Ec Rc]; [reflexivity|].
  set (c := r100 / DI4Y) in *. set (r4 := r100 mod DI4Y) in *.
  destruct (divmod_facts r4 365) as [Ee Re]; [reflexivity|].
  set (e := r4 / 365) in *. set (r := r4 mod 365) in *.
  assert (HN : N = n - 1) by reflexivity.
  clearbody N a r400 b r100 c r4 e r.
  unfold DI400Y, DI100Y, DI4Y in *.
  assert (Hb : 0 <= b <= 4) by lia.
  assert (Hc : 0 <= c <= 24) by lia.
  assert (He : 0 <= e <= 4) by lia.
  assert (Ha : 0 <= a <= 24) by lia.
  destruct (Z.eqb_spec b 4) as [Hb4 | Hb4].
  - (* the last day of a 400-year cycle *)
    rewrite orb_true_r. intros [= <- <- <-].
    assert (c = 0 /\ e = 0 /\ r = 0) as (-> & -> & ->) by lia. subst b.
    replace (a * 400 + 1 + (4 * 100 + 0 * 4 + 0) - 1)
      with (a * 400 + 1 + (3 * 100 + 24 * 4 + 3)) by lia.
    unfold valid_date, ymd2ord, days_in_month, days_before_month.
    rewrite days_before_year_cycles, is_leap_cycles by lia.
    unfold MINYEAR, MAXYEAR, DI400Y, DI100Y, DI4Y. simpl.
    split; [|lia].
    rewrite !andb_true_r. apply andb_true_intro; split; apply Z.leb_le; lia.
  - destruct (Z.eqb_spec e 4) as [He4 | He4].
    + (* the last day of a leap year *)
      simpl orb. intros [= <- <- <-]. subst e.
      assert (r = 0) as -> by lia.
      assert (Hb3 : 0 <= b <= 3) by lia.
      assert (Hc3 : 0 <= c <= 23) by lia.
      replace (a * 400 + 1 + (b * 100 + c * 4 + 4) - 1)
        with (a * 400 + 1 + (b * 100 + c * 4 + 3)) by lia.
      unfold valid_date, ymd2ord, days_in_month, days_before_month.
      rewrite days_before_year_cycles, is_leap_cycles by lia.
      destruct (Z.eqb_spec c 24) as [?|_]; [lia|].
      unfold MINYEAR, MAXYEAR, DI400Y, DI100Y, DI4Y. simpl.
      split; [|lia].
      rewrite !andb_true_r. apply andb_true_intro; split; apply Z.leb_le; lia.
    + simpl orb. cbv iota.
      assert (Hb3 : 0 <= b <= 3) by lia.
      assert (He3 : 0 <= e <= 3) by lia.
      set (leap := (e =? 3) && (negb (c =? 24) || (b =? 3))).
      pose proof (doy_ok_all leap r) as Hdoy.
      unfold doy_ok in Hdoy.
      destruct (doy2md leap r) as [m' d'].
      intros [= <- <- <-].
      specialize (Hdoy ltac:(destruct leap; lia)).
      apply andb_prop in Hdoy as [Hdoy H5].
      apply andb_prop in Hdoy as [Hdoy H4].
      apply andb_prop in Hdoy as [Hdoy H3].
      apply andb_prop in Hdoy as [H1 H2].
      apply Z.leb_le in H1, H2, H3, H4. apply Z.eqb_eq in H5.
      unfold valid_date, ymd2ord, days_in_month, days_before_month.
      rewrite days_before_year_cycles, is_leap_cycles by lia.
      fold leap. unfold MINYEAR, MAXYEAR, DI400Y, DI100Y, DI4Y.
      split; [|lia].
      repeat (apply andb_true_intro; split); apply Z.leb_le; try lia.
      destruct ((m' =? 2) && leap) eqn:E2; [|lia].
      apply andb_prop in E2 as [E2 _]. apply Z.eqb_eq in E2. subst m'.
      simpl in H4. lia.
Qed.

Lemma ord2ymd_valid n y m d :
  1 <= n <= MAXORDINAL -> ord2ymd n = (y, m, d) -> valid_date y m d = true.
Proof. intros Hn E. apply (ord2ymd_spec n y m d Hn E). Qed.

Lemma ymd2ord_ord2ymd n y m d :
  1 <= n <= MAXORDINAL -> ord2ymd n = (y, m, d) -> ymd2ord y m d = n.
Proof. intros Hn E. apply (ord2ymd_spec n y m d Hn E). Qed.

(** *** The order of dates *)

Lemma div_step (y k : Z) :
  0 < k -> y / k = (y - 1) / k + (if y mod k =? 0 then 1 else 0).
Proof.
  intros Hk.
  destruct (divmod_facts y k Hk) as [E R].
  destruct (Z.eqb_spec (y mod k) 0) as [H0 | H0].
  - symmetry. apply (Z.div_unique _ k _ 0); [lia|].
    assert ((y - 1) / k = y / k - 1); [|nia].
    symmetry. apply (Z.div_unique _ k _ (k - 1)); [lia | nia].
  - rewrite Z.add_0_r.
    apply (Z.div_unique _ k _ (y mod k - 1)); [lia | nia].
Qed.

Lemma mod_mod_divides (y k j : Z) :
  0 < k -> 0 < j -> y mod (k * j) = 0 -> y mod k = 0.
Proof.
  intros Hk Hj H.
  apply Z.mod_divide in H; [|lia]. apply Z.mod_divide; [lia|].
  destruct H as [q ->]. exists (q * j). lia.
Qed.

Lemma days_before_year_succ y :
  days_before_year (y + 1) =
  days_before_year y + 365 + (if is_leap y then 1 else 0).
Proof.
  unfold days_before_year, is_leap.
  replace (y + 1 - 1) with y by lia.
  rewrite (div_step y 4), (div_step y 100), (div_step y 400) by lia.
  pose proof (mod_mod_divides y 100 4) as H400.
  pose proof (mod_mod_divides y 4 25) as H100.
  change (100 * 4) with 400 in H400. change (4 * 25) with 100 in H100.
  destruct (Z.eqb_spec (y mod 400) 0) as [E400 | E400];
    destruct (Z.eqb_spec (y mod 100) 0) as [E100 | E100];
    destruct (Z.eqb_spec (y mod 4) 0) as [E4 | E4]; simpl; lia.
Qed.

Lemma days_before_year_le y y' :
  y <= y' -> days_before_year y <= days_before_year y'.
Proof.
  intros H. replace y' with (y + Z.of_nat (Z.to_nat (y' - y))) by lia.
  induction (Z.to_nat (y' - y)) as [|k IH]; [rewrite Z.add_0_r; lia|].
  replace (y + Z.of_nat (S k)) with (y + Z.of_nat k + 1) by lia.
  rewrite days_before_year_succ. destruct (is_leap _); lia.
Qed.

Ltac month_cases m :=
  let H := fresh in
  assert (H : m = 1 \/ m = 2 \/ m = 3 \/ m = 4 \/ m = 5 \/ m = 6 \/ m = 7 \/
              m = 8 \/ m = 9 \/ m = 10 \/ m = 11 \/ m = 12) by lia;
  repeat (destruct H as [H | H]; [subst m|]); [..|subst m].

Lemma valid_date_inv y m d :
  valid_date y m d = true ->
  1 <= y <= 9999 /\ 1 <= m <= 12 /\ 1 <= d <= days_in_month y m.
Proof.
  unfold valid_date, MINYEAR, MAXYEAR. intros H.
  repeat (apply andb_prop in H as [H ?]).
  repeat match goal with H : (_ <=? _) = true |- _ => apply Z.leb_le in H end.
  lia.
Qed.

(** Within a year, the days of a month end where the next month starts. *)
Lemma month_end_le y m m' :
  1 <= m -> m < m' -> m' <= 12 ->
  days_before_month y m + days_in_month y m <= days_before_month y m'.
Proof.
  intros H1 H2 H3. unfold days_before_month, days_in_month.
  month_cases m; month_cases m'; try lia; destruct (is_leap y); simpl; lia.
Qed.

Lemma year_end_le y m :
  1 <= m <= 12 ->
  days_before_month y m + days_in_month y m <=
  365 + (if is_leap y then 1 else 0).
Proof.
  intros H. unfold days_before_month, days_in_month.
  month_cases m; destruct (is_leap y); simpl; lia.
Qed.

Lemma days_before_month_nonneg y m :
  1 <= m <= 12 -> 0 <= days_before_month y m.
Proof.
  intros H. unfold days_before_month.
  month_cases m; destruct (is_leap y); simpl; lia.
Qed.

Ltac compare_solve :=
  symmetry;
  first [apply Z.compare_eq_iff | apply Z.compare_lt_iff
        | apply Z.compare_gt_iff]; lia.

(** Dates compare field by field as their ordinals do. *)
Lemma ymd_compare y m d y' m' d' :
  valid_date y m d = true -> valid_date y' m' d' = true ->
  lex_compare [y; m; d] [y'; m'; d'] = (ymd2ord y m d ?= ymd2ord y' m' d').
Proof.
  intros V V'. apply valid_date_inv in V as (Hy & Hm & Hd).
  apply valid_date_inv in V' as (Hy' & Hm' & Hd').
  pose proof (year_end_le y m Hm). pose proof (year_end_le y' m' Hm').
  pose proof (days_before_month_nonneg y m Hm).
  pose proof (days_before_month_nonneg y' m' Hm').
  pose proof (days_before_year_succ y). pose proof (days_before_year_succ y').
  unfold ymd2ord. simpl.
  destruct (Z.compare_spec y y') as [Ey | Ly | Ly].
  - subst y'.
    destruct (Z.compare_spec m m') as [Em | Lm | Lm].
    + subst m'. destruct (Z.compare_spec d d'); compare_solve.
    + pose proof (month_end_le y m m'). compare_solve.
    + pose proof (month_end_le y m' m). compare_solve.
  - pose proof (days_before_year_le (y + 1) y'). compare_solve.
  - pose proof (days_before_year_le (y' + 1) y). compare_solve.
Qed.

Lemma ymd2ord_range y m d :
  valid_date y m d = true -> 1 <= ymd2ord y m d <= MAXORDINAL.
Proof.
  intros V.
  pose proof (ymd_compare 1 1 1 y m d eq_refl V) as Hlo.
  pose proof (ymd_compare y m d 9999 12 31 V eq_refl) as Hhi.
  change (ymd2ord 1 1 1) with 1 in Hlo.
  change (ymd2ord 9999 12 31) with MAXORDINAL in Hhi.
  apply valid_date_inv in V as (Hy & Hm & Hd).
  assert (Hdim : days_in_month y m <= 31).
  { unfold days_in_month. month_cases m; destruct (is_leap y); simpl; lia. }
  split.
  - destruct (Z.le_gt_cases 1 (ymd2ord y m d)) as [?|G]; [assumption|].
    exfalso. apply Z.compare_gt_iff in G. rewrite G in Hlo. cbn [lex_compare] in Hlo.
    destruct (Z.compare_spec 1 y); try lia; try discriminate;
      destruct (Z.compare_spec 1 m); try lia; try discriminate;
      destruct (Z.compare_spec 1 d); try lia; discriminate.
  - destruct (Z.le_gt_cases (ymd2ord y m d) MAXORDINAL) as [?|G];
      [assumption|].
    exfalso. apply Z.compare_gt_iff in G. rewrite G in Hhi. cbn [lex_compare] in Hhi.
    destruct (Z.compare_spec y 9999); try lia; try discriminate;
      destruct (Z.compare_spec m 12); try lia; try discriminate;
      destruct (Z.compare_spec d 31); try lia; discriminate.
Qed.

(** [ord2ymd] is the inverse of [ymd2ord] on valid dates. *)
Lemma ord2ymd_ymd2ord y m d :
  valid_date y m d = true -> ord2ymd (ymd2ord y m d) = (y, m, d).
Proof.
  intros V. pose proof (ymd2ord_range y m d V) as R.
  destruct (ord2ymd (ymd2ord y m d)) as [[y' m'] d'] eqn:E.
  destruct (ord2ymd_spec _ _ _ _ R E) as [V' E'].
  pose proof (ymd_compare y' m' d' y m d V' V) as C.
  rewrite E', Z.compare_refl in C. simpl in C.
  destruct (Z.compare_spec y' y); try discriminate.
  destruct (Z.compare_spec m' m); try discriminate.
  destruct (Z.compare_spec d' d); try discriminate.
  congruence.
Qed.

End CalendarFacts.

(** ** Date-time arithmetic *)

Module DatetimeFacts.
Import Calendar CalendarFacts.

(** A duration is determined by its length in microseconds. *)
Lemma timedelta_new_total d s us :
  timedelta_new d s us = timedelta_new 0 0 ((d * 86400 + s) * 1000000 + us).
Proof.
  unfold timedelta_new.
  set (T := (d * 86400 + s) * 1000000 + us).
  assert (E1 : T / 1000000 = d * 86400 + s + us / 1000000).
  { unfold T. rewrite Z.add_comm, Z.div_add by lia. lia. }
  assert (E2 : T mod 1000000 = us mod 1000000).
  { unfold T. rewrite Z.add_comm, Z.mod_add by lia. reflexivity. }
  rewrite E1, E2.
  replace (0 + (d * 86400 + s + us / 1000000))
    with ((s + us / 1000000) + d * 86400) by lia.
  rewrite Z.div_add, Z.mod_add by lia.
  replace (0 + ((s + us / 1000000) / 86400 + d))
    with (d + (s + us / 1000000) / 86400) by lia.
  reflexivity.
Qed.

Lemma timedelta_new_ok d s us t :
  timedelta_new d s us = Ok t ->
  td_total_us t = (d * 86400 + s) * 1000000 + us /\
  0 <= seconds t < 86400 /\ 0 <= microseconds t < 1000000.
Proof.
  unfold timedelta_new.
  destruct (Z.abs _ <=? MAX_DELTA_DAYS); [|discriminate].
  intros [= <-]. unfold td_total_us. simpl.
  pose proof (divmod_facts us 1000000 eq_refl).
  pose proof (divmod_facts (s + us / 1000000) 86400 eq_refl).
  lia.
Qed.

Lemma abs_split (T : Z) :
  let s := T mod US_PER_DAY / 1000000 in
  T = (T / US_PER_DAY * 86400 + (s / 3600 * 3600 + s mod 3600 / 60 * 60 +
       s mod 3600 mod 60)) * 1000000 + T mod US_PER_DAY mod 1000000 /\
  0 <= s / 3600 <= 23 /\ 0 <= s mod 3600 / 60 <= 59 /\
  0 <= s mod 3600 mod 60 <= 59 /\
  0 <= T mod US_PER_DAY mod 1000000 <= 999999.
Proof.
  intros s. unfold US_PER_DAY in *.
  pose proof (divmod_facts T 86400000000 eq_refl).
  pose proof (divmod_facts (T mod 86400000000) 1000000 eq_refl).
  fold s in H0.
  pose proof (divmod_facts s 3600 eq_refl).
  pose proof (divmod_facts (s mod 3600) 60 eq_refl).
  lia.
Qed.

Lemma abs_in_range_inv T :
  abs_in_range T = true -> 1 <= T / US_PER_DAY <= MAXORDINAL.
Proof.
  unfold abs_in_range, US_PER_DAY, MAXORDINAL. intros H.
  apply andb_prop in H as [H1 H2].
  apply Z.leb_le in H1. apply Z.ltb_lt in H2.
  pose proof (divmod_facts T 86400000000 eq_refl). lia.
Qed.

(** Inside the range of [datetime], [dt_of_abs_us] is a valid date-time at
    the given position. *)
Lemma dt_abs_of_abs T :
  abs_in_range T = true ->
  dt_abs_us (dt_of_abs_us T) = T /\ valid_datetime (dt_of_abs_us T) = true.
Proof.
  intros R. apply abs_in_range_inv in R.
  unfold dt_of_abs_us.
  destruct (ord2ymd (T / US_PER_DAY)) as [[y m] d] eqn:E.
  destruct (ord2ymd_spec _ _ _ _ R E) as [V O].
  destruct (abs_split T) as (ET & Hh & Hm & Hs & Hu).
  unfold dt_abs_us, valid_datetime, toordinal, valid_time. simpl.
  rewrite V, O. split; [lia|].
  repeat (apply andb_true_intro; split); try reflexivity; apply Z.leb_le; lia.
Qed.

Lemma valid_time_inv h m s us :
  valid_time h m s us = true ->
  0 <= h <= 23 /\ 0 <= m <= 59 /\ 0 <= s <= 59 /\ 0 <= us <= 999999.
Proof.
  unfold valid_time. intros H.
  repeat (apply andb_prop in H as [H ?]).
  repeat match goal with H : (_ <=? _) = true |- _ => apply Z.leb_le in H end.
  lia.
Qed.

Lemma abs_unsplit (D h m s us : Z) :
  0 <= h <= 23 -> 0 <= m <= 59 -> 0 <= s <= 59 -> 0 <= us <= 999999 ->
  let T := (D * 86400 + h * 3600 + m * 60 + s) * 1000000 + us in
  let s' := T mod US_PER_DAY / 1000000 in
  T / US_PER_DAY = D /\ s' / 3600 = h /\ s' mod 3600 / 60 = m /\
  s' mod 3600 mod 60 = s /\ T mod US_PER_DAY mod 1000000 = us.
Proof.
  intros Hh Hm Hs Hu T s'. unfold US_PER_DAY in *.
  assert (E1 : T / 86400000000 = D).
  { symmetry.
    apply (Z.div_unique _ _ _ ((h * 3600 + m * 60 + s) * 1000000 + us));
      unfold T; lia. }
  assert (E2 : T mod 86400000000 = (h * 3600 + m * 60 + s) * 1000000 + us).
  { symmetry. apply (Z.mod_unique _ _ D); unfold T; lia. }
  assert (E3 : s' = h * 3600 + m * 60 + s).
  { unfold s'. rewrite E2. symmetry. apply (Z.div_unique _ _ _ us); lia. }
  split; [exact E1|]. rewrite E2, E3.
  split; [symmetry; apply (Z.div_unique _ _ _ (m * 60 + s)); lia|].
  assert (E4 : (h * 3600 + m * 60 + s) mod 3600 = m * 60 + s)
    by (symmetry; apply (Z.mod_unique _ _ h); lia).
  rewrite E4.
  split; [symmetry; apply (Z.div_unique _ _ _ s); lia|].
  split; [symmetry; apply (Z.mod_unique _ _ m); lia|].
  symmetry. apply (Z.mod_unique _ _ (h * 3600 + m * 60 + s)); lia.
Qed.

Lemma valid_datetime_inv d :
  valid_datetime d = true ->
  valid_date (year d) (month d) (day d) = true /\
  valid_time (hour d) (minute d) (second d) (microsecond d) = true.
Proof. unfold valid_datetime. intros H. apply andb_prop in H. exact H. Qed.

(** A valid date-time is the date-time at its own position. *)
Lemma dt_of_abs_abs d :
  valid_datetime d = true ->
  dt_of_abs_us (dt_abs_us d) = d /\ abs_in_range (dt_abs_us d) = true.
Proof.
  intros V. apply valid_datetime_inv in V as [Vd Vt].
  pose proof (ymd2ord_range _ _ _ Vd) as R.
  apply valid_time_inv in Vt as (Hh & Hm & Hs & Hu).
  destruct (abs_unsplit (toordinal d) _ _ _ _ Hh Hm Hs Hu)
    as (E1 & E2 & E3 & E4 & E5).
  unfold dt_of_abs_us, dt_abs_us. split.
  - rewrite E1, E2, E3, E4, E5. unfold toordinal.
    rewrite ord2ymd_ymd2ord by assumption. destruct d; reflexivity.
  - unfold abs_in_range, toordinal, US_PER_DAY, MAXORDINAL in *.
    apply andb_true_intro; split; [apply Z.leb_le | apply Z.ltb_lt]; lia.
Qed.

(** Addition moves along the time line and fails exactly when it leaves
    the range of [datetime]. *)
Lemma dt_add_abs d td :
  dt_add d td =
  let T := dt_abs_us d + td_total_us td in
  if abs_in_range T then Ok (dt_of_abs_us T) else Raise OverflowError.
Proof.
  unfold dt_add. rewrite timedelta_new_total.
  set (T := dt_abs_us d + td_total_us td).
  replace (((toordinal d + days td) * 86400 +
            (hour d * 3600 + minute d * 60 + second d + seconds td))
          * 1000000 + (microsecond d + microseconds td)) with T
    by (unfold T, dt_abs_us, td_total_us; lia).
  cbv zeta. unfold timedelta_new.
  destruct (abs_split T) as (ET & Hh & Hm & Hs & Hu).
  pose proof (divmod_facts T 1000000 eq_refl) as [F1 F2].
  pose proof (divmod_facts (0 + T / 1000000) 86400 eq_refl) as [G1 G2].
  set (D := 0 + (0 + T / 1000000) / 86400) in *.
  set (S := (0 + T / 1000000) mod 86400) in *.
  assert (ED : T / US_PER_DAY = D).
  { symmetry. unfold US_PER_DAY.
    apply (Z.div_unique _ _ _ (S * 1000000 + T mod 1000000)); lia. }
  assert (EM : T mod US_PER_DAY = S * 1000000 + T mod 1000000).
  { symmetry. unfold US_PER_DAY. apply (Z.mod_unique _ _ D); lia. }
  assert (ES : T mod US_PER_DAY / 1000000 = S).
  { rewrite EM. symmetry. apply (Z.div_unique _ _ _ (T mod 1000000)); lia. }
  assert (EU : T mod US_PER_DAY mod 1000000 = T mod 1000000).
  { rewrite EM. symmetry. apply (Z.mod_unique _ _ S); lia. }
  assert (ER : abs_in_range T = (0 <? D) && (D <=? MAXORDINAL)).
  { unfold abs_in_range, US_PER_DAY, MAXORDINAL in *.
    destruct (Z.ltb_spec 0 D), (Z.leb_spec D 3652059),
      (Z.leb_spec 86400000000 T),
      (Z.ltb_spec T ((3652059 + 1) * 86400000000)); simpl; try reflexivity;
      lia. }
  rewrite ER.
  destruct (Z.leb_spec (Z.abs D) MAX_DELTA_DAYS) as [HA | HA];
    unfold mbind, result_bind; cbn [days seconds microseconds].
  - destruct ((0 <? D) && (D <=? MAXORDINAL)); [|reflexivity].
    unfold dt_of_abs_us. rewrite ED, ES, EU.
    destruct (ord2ymd D) as [[y m] dd]. reflexivity.
  - unfold MAX_DELTA_DAYS, MAXORDINAL in *.
    destruct (Z.ltb_spec 0 D), (Z.leb_spec D 3652059); cbn [andb];
      try reflexivity; lia.
Qed.

Lemma lex_compare_app l1 l1' l2 l2' :
  length l1 = length l1' ->
  lex_compare (l1 ++ l2) (l1' ++ l2') =
  match lex_compare l1 l1' with
  | Eq => lex_compare l2 l2'
  | c => c
  end.
Proof.
  revert l1'. induction l1 as [|x l1 IH]; intros [|x' l1'] Hl;
    try discriminate; [reflexivity|].
  simpl. destruct (x ?= x'); try reflexivity.
  apply IH. simpl in Hl. congruence.
Qed.

Lemma hms_compare h m s u h' m' s' u' :
  valid_time h m s u = true -> valid_time h' m' s' u' = true ->
  lex_compare [h; m; s; u] [h'; m'; s'; u'] =
  ((h * 3600 + m * 60 + s) * 1000000 + u ?=
   (h' * 3600 + m' * 60 + s') * 1000000 + u').
Proof.
  intros V V'. apply valid_time_inv in V. apply valid_time_inv in V'.
  cbn [lex_compare].
  destruct (Z.compare_spec h h'); [|compare_solve..].
  destruct (Z.compare_spec m m'); [|compare_solve..].
  destruct (Z.compare_spec s s'); [|compare_solve..].
  destruct (Z.compare_spec u u'); compare_solve.
Qed.

(** Date-times compare as their positions on the time line do. *)
Lemma dt_compare_abs a b :
  valid_datetime a = true -> valid_datetime b = true ->
  lex_compare (dt_fields a) (dt_fields b) = (dt_abs_us a ?= dt_abs_us b).
Proof.
  intros Va Vb.
  apply valid_datetime_inv in Va as [Da Ta].
  apply valid_datetime_inv in Vb as [Db Tb].
  unfold dt_fields.
  change [year a; month a; day a; hour a; minute a; second a; microsecond a]
    with ([year a; month a; day a] ++
          [hour a; minute a; second a; microsecond a]).
  change [year b; month b; day b; hour b; minute b; second b; microsecond b]
    with ([year b; month b; day b] ++
          [hour b; minute b; second b; microsecond b]).
  rewrite lex_compare_app by reflexivity.
  rewrite ymd_compare, hms_compare by assumption.
  apply valid_time_inv in Ta. apply valid_time_inv in Tb.
  unfold dt_abs_us, toordinal.
  destruct (Z.compare_spec (ymd2ord (year a) (month a) (day a))
                           (ymd2ord (year b) (month b) (day b))) as [E|L|L].
  - rewrite E.
    destruct (Z.compare_spec
                ((hour a * 3600 + minute a * 60 + second a) * 1000000 +
                 microsecond a)
                ((hour b * 3600 + minute b * 60 + second b) * 1000000 +
                 microsecond b)); compare_solve.
  - compare_solve.
  - compare_solve.
Qed.

Lemma dt_lt_abs a b :
  valid_datetime a = true -> valid_datetime b = true ->
  dt_lt a b = (dt_abs_us a <? dt_abs_us b).
Proof.
  intros Va Vb. unfold dt_lt, Z.ltb.
  rewrite dt_compare_abs by assumption. reflexivity.
Qed.

(** The difference of two date-times is the distance of their positions. *)
Lemma dt_sub_abs a b :
  dt_sub a b = timedelta_new 0 0 (dt_abs_us a - dt_abs_us b).
Proof.
  unfold dt_sub. rewrite timedelta_new_total. f_equal.
  unfold dt_abs_us. lia.
Qed.

End DatetimeFacts.

(** ** [fixtime] *)

Section Fixtime.
Import DatetimeFacts.

Lemma is_ok_inv {A} (m : result A) : is_ok m = true -> exists a, m = Ok a.
Proof. destruct m; [eauto | discriminate]. Qed.

Lemma start_plus_inv start k t :
  start_plus start k = Ok t ->
  abs_in_range (dt_abs_us start + k * 1000000) = true /\
  t = dt_of_abs_us (dt_abs_us start + k * 1000000).
Proof.
  unfold start_plus.
  destruct (timedelta_new 0 k 0) as [delta|] eqn:E; [|discriminate].
  apply timedelta_new_ok in E as (E & _).
  unfold mbind, result_bind. rewrite dt_add_abs. cbv zeta.
  rewrite E. replace ((0 * 86400 + k) * 1000000 + 0) with (k * 1000000) by lia.
  destruct (abs_in_range _); [|discriminate].
  intros [= <-]. split; reflexivity.
Qed.

Lemma abs_in_range_bounds T :
  abs_in_range T = true -> 86400000000 <= T < 315537984000000000.
Proof.
  unfold abs_in_range. intros R. apply andb_prop in R as [R1 R2].
  apply Z.leb_le in R1. apply Z.ltb_lt in R2.
  change US_PER_DAY with 86400000000 in *.
  change ((Calendar.MAXORDINAL + 1) * 86400000000)
    with 315537984000000000 in R2.
  split; assumption.
Qed.

Lemma timedelta_new_seconds k :
  Z.abs (k / 86400) <= MAX_DELTA_DAYS ->
  timedelta_new 0 k 0 = Ok (mk_timedelta (k / 86400) (k mod 86400) 0).
Proof.
  intros Hk. unfold timedelta_new.
  change (0 / 1000000) with 0. change (0 mod 1000000) with 0.
  rewrite Z.add_0_r, Z.add_0_l.
  destruct (Z.leb_spec (Z.abs (k / 86400)) MAX_DELTA_DAYS) as [_|?];
    [reflexivity | lia].
Qed.

Lemma start_plus_ok start k :
  valid_datetime start = true ->
  abs_in_range (dt_abs_us start + k * 1000000) = true ->
  start_plus start k = Ok (dt_of_abs_us (dt_abs_us start + k * 1000000)).
Proof.
  intros V R. unfold start_plus.
  destruct (dt_of_abs_abs start V) as [_ R0].
  pose proof (CalendarFacts.divmod_facts k 86400 eq_refl) as [Dk Mk].
  rewrite timedelta_new_seconds.
  - unfold mbind, result_bind. rewrite dt_add_abs. cbv zeta.
    unfold td_total_us. cbn [days seconds microseconds].
    replace ((k / 86400 * 86400 + k mod 86400) * 1000000 + 0)
      with (k * 1000000) by lia.
    rewrite R. reflexivity.
  - apply abs_in_range_bounds in R, R0. unfold MAX_DELTA_DAYS. lia.
Qed.

(** Between two instants in range, every step of an arithmetic
    progression is in range. *)
Lemma abs_in_range_between a step (k n : Z) :
  0 <= k <= n ->
  abs_in_range a = true -> abs_in_range (a + n * step) = true ->
  abs_in_range (a + k * step) = true.
Proof.
  unfold abs_in_range. intros Hk R0 Rn.
  apply andb_prop in R0 as [R1 R2]. apply andb_prop in Rn as [R3 R4].
  apply Z.leb_le in R1, R3. apply Z.ltb_lt in R2, R4.
  apply andb_true_intro. rewrite Z.leb_le, Z.ltb_lt.
  destruct (Z.le_gt_cases 0 step).
  - assert (0 <= k * step <= n * step) by nia. lia.
  - assert (n * step <= k * step <= 0) by nia. lia.
Qed.

Lemma time_at_valid start step i :
  abs_in_range (dt_abs_us start + Z.of_nat i * step) = true ->
  valid_datetime (time_at start step i) = true /\
  dt_abs_us (time_at start step i) = dt_abs_us start + Z.of_nat i * step.
Proof.
  intros R. destruct (dt_abs_of_abs _ R). unfold time_at. auto.
Qed.

(** The loop of [fixtime], started at [currentime] with the records
    [sar_data2] already produced. *)
Lemma fixtime_loop_spec sar_data delta currentime sar_data2 :
  valid_datetime currentime = true ->
  (forall k : nat, (1 <= k <= length sar_data)%nat ->
     abs_in_range (dt_abs_us currentime + Z.of_nat k * td_total_us delta)
     = true) ->
  fixtime_loop sar_data delta currentime sar_data2 =
  Ok (sar_data2 ++
      imap (fun i x =>
              replace_time x
                (Timestamp (time_at currentime (td_total_us delta) i)))
           sar_data).
Proof.
  revert currentime sar_data2.
  induction sar_data as [|x rest IH]; intros cur acc V R.
  - simpl. rewrite app_nil_r. reflexivity.
  - cbn [fixtime_loop]. rewrite dt_add_abs. cbv zeta.
    pose proof (R 1%nat ltac:(simpl; lia)) as R1.
    replace (Z.of_nat 1 * td_total_us delta) with (td_total_us delta)
      in R1 by lia.
    rewrite R1. unfold mbind, result_bind.
    destruct (dt_abs_of_abs _ R1) as [A1 V1].
    rewrite IH; [|assumption|].
    + rewrite <- app_assoc. do 2 f_equal. cbn [imap app]. f_equal.
      * unfold time_at. rewrite Z.mul_0_l, Z.add_0_r.
        destruct (dt_of_abs_abs cur V) as [-> _]. reflexivity.
      * apply imap_ext. intros i y _. unfold compose, time_at.
        rewrite A1. do 3 f_equal. lia.
    + intros k Hk. rewrite A1.
      replace (dt_abs_us cur + td_total_us delta +
               Z.of_nat k * td_total_us delta)
        with (dt_abs_us cur + Z.of_nat (S k) * td_total_us delta) by lia.
      apply R. simpl. lia.
Qed.

Lemma time_replace_time x t : time (replace_time x t) = t.
Proof. destruct x; reflexivity. Qed.

Lemma fixtime_in_range_inv start secdiff n :
  valid_datetime start = true ->
  fixtime_in_range start secdiff n = true ->
  (exists delta, timedelta_new 0 secdiff 0 = Ok delta /\
                 td_total_us delta = secdiff * 1000000) /\
  (forall k : nat, (k <= n)%nat ->
     abs_in_range (dt_abs_us start + Z.of_nat k * (secdiff * 1000000)) = true).
Proof.
  intros V H. apply andb_prop in H as [H1 H2].
  apply is_ok_inv in H1 as [delta Hd]. apply is_ok_inv in H2 as [tn Hn].
  split.
  - exists delta. split; [assumption|].
    apply timedelta_new_ok in Hd as [-> _]. lia.
  - intros k Hk. apply start_plus_inv in Hn as [Rn _].
    destruct (dt_of_abs_abs start V) as [_ R0].
    apply (abs_in_range_between _ _ (Z.of_nat k) (Z.of_nat n));
      [lia | assumption |].
    replace (Z.of_nat n * (secdiff * 1000000))
      with (Z.of_nat n * secdiff * 1000000) by lia.
    assumption.
Qed.

(** In range, [fixtime] returns the input with the time stamps of an
    arithmetic progression. *)
Lemma fixtime_in_range_ok sar_data start secdiff :
  valid_datetime start = true ->
  fixtime_in_range start secdiff (length sar_data) = true ->
  exists out,
    fixtime sar_data start secdiff = Ok out /\
    length out = length sar_data /\
    (forall (i : nat) x, sar_data !! i = Some x ->
       exists t,
         start_plus start (Z.of_nat i * secdiff) = Ok t /\
         out !! i = Some (replace_time x (Timestamp t))) /\
    (forall (i : nat) y y', out !! i = Some y -> out !! S i = Some y' ->
       exists t t',
         time y = Timestamp t /\ time y' = Timestamp t' /\
         dt_sub t' t = timedelta_new 0 secdiff 0 /\
         (0 < secdiff -> dt_lt t t' = true)).
Proof.
  intros V H.
  destruct (fixtime_in_range_inv _ _ _ V H) as [(delta & Hd & Ed) R].
  unfold fixtime. rewrite Hd. unfold mbind, result_bind.
  rewrite fixtime_loop_spec; [|assumption|];
    [|intros k Hk; rewrite Ed; apply R; lia].
  rewrite Ed, app_nil_l.
  set (step := secdiff * 1000000) in *.
  eexists. split; [reflexivity|].
  split; [apply length_imap|].
  split.
  - intros i x Hx. exists (time_at start step i).
    assert (Hi : (i <= length sar_data)%nat)
      by (apply lookup_lt_Some in Hx; lia).
    split.
    + rewrite start_plus_ok; [|assumption|].
      * unfold time_at, step. do 3 f_equal. lia.
      * replace (Z.of_nat i * secdiff * 1000000)
          with (Z.of_nat i * step) by (unfold step; lia).
        apply R, Hi.
    + rewrite list_lookup_imap, Hx. reflexivity.
  - intros i y y' Hy Hy'.
    rewrite list_lookup_imap in Hy, Hy'.
    destruct (sar_data !! i) as [x|] eqn:Hx; [|discriminate].
    destruct (sar_data !! S i) as [x'|] eqn:Hx'; [|discriminate].
    injection Hy as <-. injection Hy' as <-.
    apply lookup_lt_Some in Hx'.
    destruct (time_at_valid start step i) as [Vi Ai]; [apply R; lia|].
    destruct (time_at_valid start step (S i)) as [Vi' Ai'];
      [apply R; lia|].
    exists (time_at start step i), (time_at start step (S i)).
    rewrite !time_replace_time.
    split; [reflexivity|]. split; [reflexivity|]. split.
    + rewrite dt_sub_abs, <- Hd, (timedelta_new_total 0 secdiff 0), Ai, Ai'.
      f_equal. unfold step. lia.
    + intros Hpos. rewrite dt_lt_abs by assumption.
      apply Z.ltb_lt. rewrite Ai, Ai'. unfold step. lia.
Qed.

Lemma dt_add_raise d td e : dt_add d td = Raise e -> e = OverflowError.
Proof.
  rewrite dt_add_abs. cbv zeta.
  destruct (abs_in_range _); [discriminate | congruence].
Qed.

Lemma timedelta_new_raise d s us e :
  timedelta_new d s us = Raise e -> e = OverflowError.
Proof.
  unfold timedelta_new. destruct (_ <=? _); [discriminate | congruence].
Qed.

Lemma fixtime_loop_raise sar_data delta : forall currentime sar_data2 e,
  fixtime_loop sar_data delta currentime sar_data2 = Raise e ->
  e = OverflowError.
Proof.
  induction sar_data as [|x rest IH]; intros cur acc e H; [discriminate|].
  cbn [fixtime_loop] in H.
  destruct (dt_add cur delta) as [cur'|e'] eqn:E; cbn [mbind result_bind] in H.
  - apply (IH _ _ _ H).
  - injection H as <-. apply (dt_add_raise _ _ _ E).
Qed.

(** When the loop returns, every instant it has computed, the one after
    the last sample included, is in range. *)
Lemma fixtime_loop_ok_range sar_data delta : forall currentime sar_data2 out,
  valid_datetime currentime = true ->
  fixtime_loop sar_data delta currentime sar_data2 = Ok out ->
  forall k : nat, (k <= length sar_data)%nat ->
    abs_in_range (dt_abs_us currentime + Z.of_nat k * td_total_us delta) = true.
Proof.
  induction sar_data as [|x rest IH]; intros cur acc out V H k Hk.
  - simpl in Hk. replace k with 0%nat by lia.
    rewrite Z.mul_0_l, Z.add_0_r. apply (dt_of_abs_abs cur V).
  - cbn [fixtime_loop] in H. rewrite dt_add_abs in H. cbv zeta in H.
    destruct (abs_in_range (dt_abs_us cur + td_total_us delta)) eqn:R1;
      [|discriminate].
    cbn [mbind result_bind] in H.
    destruct (dt_abs_of_abs _ R1) as [A1 V1].
    destruct k as [|k].
    + rewrite Z.mul_0_l, Z.add_0_r. apply (dt_of_abs_abs cur V).
    + pose proof (IH _ _ _ V1 H k ltac:(simpl in Hk; lia)) as R.
      rewrite A1 in R.
      replace (dt_abs_us cur + Z.of_nat (S k) * td_total_us delta)
        with (dt_abs_us cur + td_total_us delta +
              Z.of_nat k * td_total_us delta) by lia.
      exact R.
Qed.

Lemma fixtime_ok_in_range sar_data start secdiff out :
  valid_datetime start = true ->
  fixtime sar_data start secdiff = Ok out ->
  fixtime_in_range start secdiff (length sar_data) = true.
Proof.
  intros V H. unfold fixtime in H. unfold fixtime_in_range.
  destruct (timedelta_new 0 secdiff 0) as [delta|] eqn:Ed; [|discriminate].
  cbn [mbind result_bind is_ok andb] in *.
  pose proof (fixtime_loop_ok_range _ _ _ _ _ V H (length sar_data)
                ltac:(lia)) as R.
  apply timedelta_new_ok in Ed as [Ed _]. rewrite Ed in R.
  rewrite start_plus_ok; [reflexivity | assumption |].
  replace (Z.of_nat (length sar_data) * secdiff * 1000000)
    with (Z.of_nat (length sar_data) * ((0 * 86400 + secdiff) * 1000000 + 0))
    by lia.
  exact R.
Qed.

(** C1 (amended): [fixtime] returns exactly when neither
    [timedelta(0, secdiff)] nor [start + timedelta(0, n * secdiff)]
    overflows, for [n] the number of samples, and raises [OverflowError]
    otherwise. When it returns, the result has the length and the order
    of the input, entry [i] is the input entry with its time field
    replaced by [start + timedelta(0, i * secdiff)], each time stamp is
    exactly [secdiff] seconds after the previous one, and strictly later
    when [secdiff > 0]. *)
Theorem fixtime_timestamps sar_data start secdiff :
  valid_datetime start = true ->
  (fixtime_in_range start secdiff (length sar_data) = true ->
   exists out,
     fixtime sar_data start secdiff = Ok out /\
     length out = length sar_data /\
     (forall (i : nat) x, sar_data !! i = Some x ->
        exists t,
          start_plus start (Z.of_nat i * secdiff) = Ok t /\
          out !! i = Some (replace_time x (Timestamp t))) /\
     (forall (i : nat) y y', out !! i = Some y -> out !! S i = Some y' ->
        exists t t',
          time y = Timestamp t /\ time y' = Timestamp t' /\
          dt_sub t' t = timedelta_new 0 secdiff 0 /\
          (0 < secdiff -> dt_lt t t' = true))) /\
  (fixtime_in_range start secdiff (length sar_data) = false ->
   fixtime sar_data start secdiff = Raise OverflowError).
Proof.
  intros V. split; [apply fixtime_in_range_ok, V|].
  intros Hout.
  destruct (fixtime sar_data start secdiff) as [out|e] eqn:E.
  - rewrite (fixtime_ok_in_range _ _ _ _ V E) in Hout. discriminate.
  - f_equal. unfold fixtime in E.
    destruct (timedelta_new 0 secdiff 0) as [delta|e'] eqn:Ed;
      cbn [mbind result_bind] in E.
    + apply (fixtime_loop_raise _ _ _ _ _ E).
    + injection E as <-. apply (timedelta_new_raise _ _ _ _ Ed).
Qed.

End Fixtime.

(** ** [fixtime]: examples *)

(** C1 (as stated) fails: advancing the clock past the last sample leaves
    the range of [datetime]. *)
Lemma fixtime_overflow_last_second :
  valid_datetime last_second = true /\
  fixtime [cpu_row "09:40:03 PM" 1 97] last_second 1 = Raise OverflowError.
Proof. split; reflexivity. Qed.

Lemma fixtime_timestamps_witness :
  exists out,
    fixtime two_rows timelog_start 10 = Ok out /\
    length out = 2%nat /\
    out !! 1%nat =
      Some (replace_time (cpu_row "09:40:13 PM" 3 95)
              (Timestamp (mk_datetime 2024 1 2 15 4 15 0))).
Proof.
  destruct (fixtime_timestamps two_rows timelog_start 10 eq_refl) as [Hin _].
  destruct (Hin eq_refl) as (out & Hout & Hlen & Hi & _).
  exists out. split; [exact Hout|]. split; [exact Hlen|].
  destruct (Hi 1%nat (cpu_row "09:40:13 PM" 3 95) eq_refl) as (t & Ht & ->).
  vm_compute in Ht. injection Ht as <-. reflexivity.
Defined.

(** ** [make_timediff] *)

Section MakeTimediff.

(** C2: when the first two time-of-day fields parse to [(h1, m1, s1)]
    and [(h2, m2, s2)] with [h1 = h2], [make_timediff] returns
    [(m2 - m1) * 60 + (s2 - s1)], whatever its sign. *)
Theorem make_timediff_same_hour sar_data x0 x1 h1 m1 s1 h2 m2 s2 :
  sar_data !! 0%nat = Some x0 ->
  sar_data !! 1%nat = Some x1 ->
  parse_sartime (time x0) = Ok (h1, m1, s1) ->
  parse_sartime (time x1) = Ok (h2, m2, s2) ->
  h1 = h2 ->
  make_timediff sar_data = Ok ((m2 - m1) * 60 + (s2 - s1)).
Proof.
  intros H0 H1 P0 P1 Hh. unfold make_timediff, py_index.
  rewrite H0, H1. cbn [mbind result_bind]. rewrite P0, P1.
  cbn [mbind result_bind]. subst h2. rewrite Z.eqb_refl.
  cbn [py_assert mbind result_bind]. f_equal. lia.
Qed.

(** The interval of two rows in reverse order is negative. *)
Lemma make_timediff_same_hour_witness :
  make_timediff two_rows_reversed = Ok ((40 - 40) * 60 + (3 - 13)).
Proof.
  apply (make_timediff_same_hour two_rows_reversed
           (cpu_row "09:40:13 PM" 3 95) (cpu_row "09:40:03 PM" 1 97)
           9 40 13 9 40 3); reflexivity.
Defined.

(** C6: when the first two time-of-day fields parse to different hours,
    [make_timediff] fails on its assertion. *)
Theorem make_timediff_hour_boundary sar_data x0 x1 h1 m1 s1 h2 m2 s2 :
  sar_data !! 0%nat = Some x0 ->
  sar_data !! 1%nat = Some x1 ->
  parse_sartime (time x0) = Ok (h1, m1, s1) ->
  parse_sartime (time x1) = Ok (h2, m2, s2) ->
  h1 <> h2 ->
  make_timediff sar_data = Raise (AssertionError None).
Proof.
  intros H0 H1 P0 P1 Hh. unfold make_timediff, py_index.
  rewrite H0, H1. cbn [mbind result_bind]. rewrite P0, P1.
  cbn [mbind result_bind].
  destruct (Z.eqb_spec h1 h2); [contradiction | reflexivity].
Qed.

Lemma make_timediff_hour_boundary_witness :
  make_timediff rows_across_hours = Raise (AssertionError None).
Proof.
  apply (make_timediff_hour_boundary rows_across_hours
           (cpu_row "09:59:55 PM" 1 97) (cpu_row "10:00:05 PM" 3 95)
           9 59 55 10 0 5); [reflexivity.. | discriminate].
Defined.

(** C7 (as stated) fails: on a single sample whose time does not parse,
    [make_timediff] raises the [ValueError] of [parse_sartime], before
    any access to the missing second sample. *)
Lemma make_timediff_one_garbage_row :
  (length row_garbage < 2)%nat /\
  make_timediff row_garbage = Raise ValueError.
Proof. split; [simpl; lia | reflexivity]. Qed.

(** C7 (amended): on fewer than two samples [make_timediff] raises and
    returns no interval: the [IndexError] of the access to the missing
    sample when the sequence is empty or the time of its single sample
    parses, the exception of [parse_sartime] when that time does not
    parse. *)
Theorem make_timediff_too_short sar_data :
  (length sar_data < 2)%nat ->
  make_timediff sar_data =
  Raise (match sar_data with
         | [x] => match parse_sartime (time x) with
                  | Ok _ => IndexError
                  | Raise e => e
                  end
         | _ => IndexError
         end).
Proof.
  intros Hl. destruct sar_data as [|x [|x' rest]]; [| |simpl in Hl; lia].
  - reflexivity.
  - unfold make_timediff, py_index. cbn [lookup list_lookup mbind result_bind].
    destruct (parse_sartime (time x)) as [hms|e]; reflexivity.
Qed.

Lemma make_timediff_too_short_witness :
  make_timediff [cpu_row "09:40:03 PM" 1 97] = Raise IndexError.
Proof.
  apply (make_timediff_too_short [cpu_row "09:40:03 PM" 1 97]).
  simpl. lia.
Defined.

End MakeTimediff.

(** ** [get_sar_start_time] *)

Section StartTime.

(** C3 (as stated) fails: a first sample whose time of day parses to a
    minute outside [0 .. 59] makes the resolver raise [ValueError]. *)
Lemma get_sar_start_time_minute_75 :
  valid_datetime timelog_start = true /\
  (exists x, row_minute_75 !! 0%nat = Some x /\
             parse_sartime (time x) = Ok (9, 75, 0)) /\
  get_sar_start_time row_minute_75 timelog_start = Raise ValueError.
Proof.
  split; [reflexivity|]. split; [|reflexivity].
  eexists. split; reflexivity.
Qed.

Lemma valid_datetime_fits d :
  valid_datetime d = true ->
  fits_c_int (year d) = true /\ fits_c_int (month d) = true /\
  fits_c_int (day d) = true /\ fits_c_int (hour d) = true.
Proof.
  intros V. apply DatetimeFacts.valid_datetime_inv in V as [Vd Vt].
  apply CalendarFacts.valid_date_inv in Vd as (Hy & Hm & Hd).
  apply DatetimeFacts.valid_time_inv in Vt as (Hh & _).
  destruct d as [y mo dd hh mi ss us].
  cbn [year month day hour minute second microsecond] in *.
  assert (Calendar.days_in_month y mo <= 31).
  { unfold Calendar.days_in_month.
    destruct ((mo =? 2) && Calendar.is_leap y); [lia|].
    clear Hd. CalendarFacts.month_cases mo; simpl; lia. }
  unfold fits_c_int.
  repeat split; apply andb_true_intro; split; apply Z.leb_le; lia.
Qed.

(** C3 (amended): when the time of day of the first sample parses to
    [(h, m, s)] with [m] and [s] in [0 .. 59], the resolver returns the
    date-time whose year, month, day and hour are those of the reference
    and whose minute and second are [m] and [s]; the result depends on
    the reference and on the first sample only. When [m] or [s] is out of
    [0 .. 59] the resolver raises: [ValueError] when both fit a C [int],
    [OverflowError] otherwise. *)
Theorem get_sar_start_time_fields sar_data x timelog_timestamp h m s :
  valid_datetime timelog_timestamp = true ->
  sar_data !! 0%nat = Some x ->
  parse_sartime (time x) = Ok (h, m, s) ->
  (0 <= m <= 59 /\ 0 <= s <= 59 ->
   exists d,
     get_sar_start_time sar_data timelog_timestamp = Ok d /\
     year d = year timelog_timestamp /\
     month d = month timelog_timestamp /\
     day d = day timelog_timestamp /\
     hour d = hour timelog_timestamp /\
     minute d = m /\ second d = s /\
     (forall sar_data', sar_data' !! 0%nat = Some x ->
        get_sar_start_time sar_data' timelog_timestamp = Ok d)) /\
  (~ (0 <= m <= 59 /\ 0 <= s <= 59) ->
   get_sar_start_time sar_data timelog_timestamp =
   Raise (if fits_c_int m && fits_c_int s then ValueError
          else OverflowError)).
Proof.
  intros V H0 P.
  destruct (valid_datetime_fits _ V) as (Fy & Fmo & Fd & Fh).
  apply DatetimeFacts.valid_datetime_inv in V as [Vd Vt].
  apply DatetimeFacts.valid_time_inv in Vt as (Hh & _).
  assert (E : forall l, l !! 0%nat = Some x ->
            get_sar_start_time l timelog_timestamp =
            if negb (fits_c_int m && fits_c_int s) then Raise OverflowError
            else if (0 <=? m) && (m <=? 59) && (0 <=? s) && (s <=? 59)
            then Ok (mk_datetime (year timelog_timestamp)
                       (month timelog_timestamp) (day timelog_timestamp)
                       (hour timelog_timestamp) m s 0)
            else Raise ValueError).
  { intros l Hl. unfold get_sar_start_time, py_index. rewrite Hl.
    cbn [mbind result_bind]. rewrite P. cbn [mbind result_bind].
    unfold datetime_new, valid_time. cbn [forallb].
    rewrite Fy, Fmo, Fd, Fh, Vd. cbn [andb]. rewrite !andb_true_r.
    replace (0 <=? hour timelog_timestamp) with true
      by (symmetry; apply Z.leb_le; lia).
    replace (hour timelog_timestamp <=? 23) with true
      by (symmetry; apply Z.leb_le; lia).
    cbn [andb]. reflexivity. }
  split.
  - intros [Hm Hs].
    assert (F : fits_c_int m && fits_c_int s = true).
    { unfold fits_c_int.
      repeat (apply andb_true_intro; split); apply Z.leb_le; lia. }
    assert (G : (0 <=? m) && (m <=? 59) && (0 <=? s) && (s <=? 59) = true).
    { repeat (apply andb_true_intro; split); apply Z.leb_le; lia. }
    rewrite F, G in E. cbn [negb] in E.
    eexists. split; [apply E, H0|]. repeat split; try reflexivity. exact E.
  - intros Hout. rewrite (E _ H0).
    destruct (fits_c_int m && fits_c_int s); cbn [negb]; [|reflexivity].
    destruct ((0 <=? m) && (m <=? 59) && (0 <=? s) && (s <=? 59)) eqn:G;
      [|reflexivity].
    exfalso. apply Hout.
    repeat (apply andb_prop in G as [G ?]).
    repeat match goal with H : (_ <=? _) = true |- _ => apply Z.leb_le in H end.
    lia.
Qed.

Lemma get_sar_start_time_fields_witness :
  exists d,
    get_sar_start_time two_rows timelog_start = Ok d /\
    year d = 2024 /\ month d = 1 /\ day d = 2 /\ hour d = 15 /\
    minute d = 40 /\ second d = 3.
Proof.
  destruct (get_sar_start_time_fields two_rows (cpu_row "09:40:03 PM" 1 97)
              timelog_start 9 40 3) as [Hin _];
    [reflexivity | reflexivity | reflexivity |].
  destruct Hin as (d & Hd & Hy & Hmo & Hda & Hh & Hmi & Hs & _); [lia|].
  exists d. repeat split; assumption.
Defined.

End StartTime.

(** ** [fixtime] and the store *)

Section FixtimeStore.

Lemma same_but_time_replace x t : same_but_time x (replace_time x t).
Proof. destruct x; split; reflexivity. Qed.

(** Whatever [fixtime] returns is the input with new time fields. *)
Lemma fixtime_loop_shape sar_data delta : forall currentime sar_data2 out,
  fixtime_loop sar_data delta currentime sar_data2 = Ok out ->
  exists new, out = sar_data2 ++ new /\ Forall2 same_but_time sar_data new.
Proof.
  induction sar_data as [|x rest IH]; intros cur acc out H.
  - injection H as <-. exists []. rewrite app_nil_r. split; constructor.
  - cbn [fixtime_loop] in H.
    destruct (dt_add cur delta) as [cur'|] eqn:E; [|discriminate].
    cbn [mbind result_bind] in H.
    destruct (IH _ _ _ H) as (new & -> & HF).
    eexists. rewrite <- app_assoc. split; [reflexivity|].
    constructor; [apply same_but_time_replace | exact HF].
Qed.

Lemma store_with_old h ys (l : loc) o :
  h !! l = Some o -> store_with h ys !! l = Some o.
Proof. intros H. unfold store_with. apply lookup_app_l_Some, H. Qed.

Lemma store_with_snoc h ys y :
  list_append (store_with h ys ++ [OTuple y]) (length h)
              (length (store_with h ys))
  = store_with h (ys ++ [y]).
Proof.
  unfold list_append, store_with.
  rewrite <- app_assoc. cbn [app].
  rewrite list_lookup_middle by reflexivity.
  replace (length h) with (length h + 0)%nat at 1 by lia.
  rewrite insert_app_r. cbn [insert list_insert].
  rewrite !length_app, fmap_app. cbn [length fmap list_fmap].
  rewrite length_fmap, Nat.add_1_r, seq_S.
  replace (length h + S (length ys))%nat with (S (length h) + length ys)%nat
    by lia.
  reflexivity.
Qed.

Lemma fixtime_store_loop_spec h (l : loc) items delta rest :
  h !! l = Some (OList items) ->
  forall (i : nat) cur ys fuel,
    Forall2 (fun lx x => h !! lx = Some (OTuple x)) (drop i items) rest ->
    (length rest < fuel)%nat ->
    exists h' r,
      fixtime_store_loop fuel (store_with h ys) l i delta cur (length h)
      = Some (h', r) /\
      match fixtime_loop rest delta cur ys with
      | Ok out => r = Ok tt /\ h' = store_with h out
      | Raise e => r = Raise e /\ exists ys', h' = store_with h ys'
      end.
Proof.
  intros Hl. induction rest as [|x rest IH]; intros i cur ys fuel HF Hfuel.
  - destruct fuel as [|fuel]; [simpl in Hfuel; lia|].
    cbn [fixtime_store_loop fixtime_loop].
    rewrite (store_with_old _ _ _ _ Hl).
    apply Forall2_nil_inv_r in HF.
    assert (items !! i = None) as ->.
    { apply lookup_ge_None_2. apply (f_equal length) in HF.
      rewrite length_drop in HF. simpl in HF. lia. }
    eauto.
  - destruct fuel as [|fuel]; [simpl in Hfuel; lia|].
    cbn [fixtime_store_loop fixtime_loop].
    rewrite (store_with_old _ _ _ _ Hl).
    apply Forall2_cons_inv_r in HF as (lx & tl & Hx & HF & Ed).
    assert (Hi : items !! i = Some lx).
    { rewrite <- (Nat.add_0_r i), <- lookup_drop, Ed. reflexivity. }
    assert (Etl : drop (S i) items = tl).
    { replace (S i) with (i + 1)%nat by lia.
      rewrite <- drop_drop, Ed. reflexivity. }
    rewrite Hi, (store_with_old _ _ _ _ Hx).
    unfold alloc. rewrite store_with_snoc.
    destruct (dt_add cur delta) as [cur'|e] eqn:E;
      cbn [mbind result_bind].
    + apply IH; [rewrite Etl; exact HF | simpl in Hfuel; lia].
    + eauto 6.
Qed.

Lemma store_with_new_tuples pre ys :
  Forall2 (fun (lx : loc) x => (pre ++ (OTuple <$> ys)) !! lx = Some (OTuple x))
          (seq (length pre) (length ys)) ys.
Proof.
  revert pre. induction ys as [|y ys IH]; intros pre; [constructor|].
  cbn [length seq fmap list_fmap]. constructor.
  - apply list_lookup_middle. reflexivity.
  - specialize (IH (pre ++ [OTuple y])).
    rewrite length_app, Nat.add_1_r, <- app_assoc in IH. exact IH.
Qed.

Lemma store_with_new_list h ys : list_in_store (store_with h ys) (length h) ys.
Proof.
  exists (seq (S (length h)) (length ys)). split.
  - unfold store_with. apply list_lookup_middle. reflexivity.
  - pose proof (store_with_new_tuples
                  (h ++ [OList (seq (S (length h)) (length ys))]) ys) as H.
    rewrite length_app, Nat.add_1_r, <- app_assoc in H. exact H.
Qed.

(** C9 (amended): [fixtime] leaves every object of the caller's store as
    it was, the list [sar_data] and its records included, whether it
    returns or raises; it returns whenever its date arithmetic stays in
    range, and what it returns is a new list of new records, one for each
    input record and in the same order, that differ from the input
    records in the time field only. *)
Theorem fixtime_frame h (l : loc) sar_data start secdiff :
  list_in_store h l sar_data ->
  exists h' r,
    fixtime_store (S (length sar_data)) h l start secdiff = Some (h', r) /\
    (forall (l' : loc) o, h !! l' = Some o -> h' !! l' = Some o) /\
    list_in_store h' l sar_data /\
    match r with
    | Ok l2 =>
        h !! l2 = None /\
        exists out,
          list_in_store h' l2 out /\
          fixtime sar_data start secdiff = Ok out /\
          Forall2 same_but_time sar_data out
    | Raise e => fixtime sar_data start secdiff = Raise e
    end /\
    (valid_datetime start = true ->
     fixtime_in_range start secdiff (length sar_data) = true ->
     is_ok r = true).
Proof.
  intros (items & Hl & HF).
  assert (Hkeep : forall ys, list_in_store (store_with h ys) l sar_data).
  { intros ys. exists items. split; [apply store_with_old, Hl|].
    eapply Forall2_impl; [exact HF|].
    intros lx x Hx. apply store_with_old, Hx. }
  assert (Hret : forall e, fixtime sar_data start secdiff = Raise e ->
            valid_datetime start = true ->
            fixtime_in_range start secdiff (length sar_data) = true ->
            is_ok (@Raise loc e) = true).
  { intros e E V R.
    destruct (fixtime_in_range_ok _ _ _ V R) as (out & Hout & _).
    congruence. }
  unfold fixtime_store.
  destruct (timedelta_new 0 secdiff 0) as [delta|e] eqn:Ed.
  - unfold alloc.
    destruct (fixtime_store_loop_spec h l items delta sar_data Hl 0 start []
                (S (length sar_data))) as (h' & r & E & Hr);
      [rewrite drop_0; exact HF | lia |].
    change (store_with h []) with (h ++ [OList []]) in E.
    rewrite E.
    destruct (fixtime_loop sar_data delta start []) as [out|e] eqn:EL.
    + destruct Hr as [-> ->].
      exists (store_with h out), (Ok (length h)).
      split; [reflexivity|].
      split; [intros l' o; apply store_with_old|].
      split; [apply Hkeep|].
      split; [|reflexivity].
      split; [apply lookup_ge_None_2; lia|].
      exists out. split; [apply store_with_new_list|].
      split; [unfold fixtime; rewrite Ed; exact EL|].
      destruct (fixtime_loop_shape _ _ _ _ _ EL) as (new & -> & Hnew).
      exact Hnew.
    + destruct Hr as [-> [ys' ->]].
      assert (EF : fixtime sar_data start secdiff = Raise e)
        by (unfold fixtime; rewrite Ed; exact EL).
      exists (store_with h ys'), (Raise e).
      split; [reflexivity|].
      split; [intros l' o; apply store_with_old|].
      split; [apply Hkeep|].
      split; [exact EF | apply Hret, EF].
  - assert (EF : fixtime sar_data start secdiff = Raise e)
      by (unfold fixtime; rewrite Ed; reflexivity).
    exists h, (Raise e). split; [reflexivity|].
    split; [auto|]. split; [exists items; split; assumption|].
    split; [exact EF | apply Hret, EF].
Qed.

End FixtimeStore.

(** C9 (as stated) fails: ten seconds before the end of the last day,
    [fixtime] raises on the first step and produces no output record
    for the two input records. *)
Lemma fixtime_store_overflow :
  list_in_store two_rows_store 2 two_rows /\
  valid_datetime last_ten_seconds = true /\
  fixtime two_rows last_ten_seconds 10 = Raise OverflowError /\
  exists h',
    fixtime_store 3 two_rows_store 2 last_ten_seconds 10 =
    Some (h', Raise OverflowError).
Proof.
  split.
  { exists [0%nat; 1%nat]. split; [reflexivity|]. repeat constructor. }
  split; [reflexivity|]. split; [vm_compute; reflexivity|].
  eexists. vm_compute. reflexivity.
Qed.

Lemma fixtime_frame_witness :
  list_in_store two_rows_store 2 two_rows /\
  exists h' l2,
    fixtime_store 3 two_rows_store 2 timelog_start 10 = Some (h', Ok l2) /\
    list_in_store h' 2 two_rows /\
    two_rows_store !! l2 = None.
Proof.
  assert (H : list_in_store two_rows_store 2 two_rows).
  { exists [0%nat; 1%nat]. split; [reflexivity|].
    repeat constructor. }
  split; [exact H|].
  destruct (fixtime_frame two_rows_store 2 two_rows timelog_start 10 H)
    as (h' & r & E & _ & Hkeep & Hr & Hok).
  destruct r as [l2|e].
  - exists h', l2. split; [exact E|]. split; [exact Hkeep | apply Hr].
  - exfalso. specialize (Hok eq_refl eq_refl). discriminate.
Defined.

(** ** The tokenizers *)

Section ForLines.
Context {A : Type} (body : nat -> string -> result (option A)).

Lemma for_lines_raise lines : forall n acc (i : nat) line e,
  lines !! i = Some line ->
  body (n + i) line = Raise e ->
  raises (for_lines body n lines acc) /\
  ((forall (j : nat) l, (j < i)%nat -> lines !! j = Some l ->
      is_ok (body (n + j) l) = true) ->
   for_lines body n lines acc = Raise e).
Proof.
  induction lines as [|l0 rest IH]; intros n acc i line e Hi He;
    [discriminate|].
  destruct i as [|i].
  - injection Hi as ->. rewrite Nat.add_0_r in He.
    cbn [for_lines]. rewrite He. split; [eexists|intros _]; reflexivity.
  - cbn [for_lines]. simpl in Hi.
    replace (n + S i)%nat with (S n + i)%nat in He by lia.
    destruct (body n l0) as [r|e0] eqn:E0.
    + cbn [mbind result_bind].
      destruct (IH (S n) (match r with Some t => acc ++ [t] | None => acc end)
                  i line e Hi He) as [IH1 IH2].
      split; [exact IH1|]. intros Hok. apply IH2.
      intros j l Hj Hl.
      replace (S n + j)%nat with (n + S j)%nat by lia.
      apply (Hok (S j)); [lia | exact Hl].
    + split; [eexists; reflexivity|]. intros Hok.
      specialize (Hok 0%nat l0 ltac:(lia) eq_refl).
      rewrite Nat.add_0_r, E0 in Hok. discriminate.
Qed.

Lemma for_lines_ok (P : A -> Prop) (q : nat -> string -> bool) :
  (forall n line t, body n line = Ok (Some t) -> P t /\ q n line = true) ->
  forall lines n acc out,
    for_lines body n lines acc = Ok out ->
    Forall P acc ->
    Forall P out /\ (length out <= length acc + count_rows q n lines)%nat.
Proof.
  intros Hbody. induction lines as [|l0 rest IH]; intros n acc out H HP.
  - injection H as <-. simpl. split; [assumption | lia].
  - cbn [for_lines] in H.
    destruct (body n l0) as [[t|]|e0] eqn:E0; try discriminate;
      cbn [mbind result_bind] in H.
    + destruct (Hbody _ _ _ E0) as [Pt Qt].
      destruct (IH _ _ _ H) as [H1 H2].
      { apply Forall_app. split; [assumption | repeat constructor; exact Pt]. }
      split; [exact H1|]. rewrite length_app in H2. cbn [count_rows].
      rewrite Qt. simpl in *. lia.
    + destruct (IH _ _ _ H HP) as [H1 H2].
      split; [exact H1|]. cbn [count_rows]. lia.
Qed.

(** Every line yields a result, and the records are those of the lines
    that yield one, in order. *)
Lemma for_lines_all_some (f : string -> result A) lines :
  (forall n line, body n line = (fun t => Some t) <$> f line) ->
  forall n acc out,
    for_lines body n lines acc = Ok out ->
    exists new, out = acc ++ new /\
                Forall2 (fun line t => f line = Ok t) lines new.
Proof.
  intros Hbody. induction lines as [|l0 rest IH]; intros n acc out H.
  - injection H as <-. exists []. rewrite app_nil_r. split; constructor.
  - cbn [for_lines] in H. rewrite Hbody in H.
    destruct (f l0) as [t|e0] eqn:E0; [|discriminate].
    cbn [fmap result_fmap mbind result_bind] in H.
    destruct (IH _ _ _ H) as (new & -> & HF).
    exists (t :: new). rewrite <- app_assoc. split; [reflexivity|].
    constructor; assumption.
Qed.

End ForLines.

Section TokenizerFacts.
Variable py_float : string -> result float.
Variable strptime : string -> string -> result datetime.

Lemma is_data_row_inv n line :
  is_data_row n line = true ->
  (n <? 3)%nat = false /\ PyStr.startswith line "Average" = false /\
  PyStr.nonempty (PyStr.strip line) = true.
Proof.
  unfold is_data_row. intros H.
  apply andb_prop in H as [H H3]. apply andb_prop in H as [H1 H2].
  apply negb_true_iff in H1, H2. auto.
Qed.

(** A data row of another device is skipped before its fields are
    counted. *)
Lemma disk_line_other_device device n line d :
  is_data_row n line = true ->
  fields_of line !! 2%nat = Some d ->
  d <> device ->
  disk_line py_float device n line = Ok None.
Proof.
  intros Hrow Hd Hne. apply is_data_row_inv in Hrow as (H1 & H2 & H3).
  unfold disk_line, py_index. fold (fields_of line).
  rewrite H1, H2, H3, Hd. cbn [negb mbind result_bind].
  destruct (String.eqb_spec d device); [contradiction | reflexivity].
Qed.

(** A data row of the requested device passes the assertion on its
    number of fields. *)
Lemma disk_line_this_device device n line :
  is_data_row n line = true ->
  fields_of line !! 2%nat = Some device ->
  length (fields_of line) <> 11%nat ->
  disk_line py_float device n line =
  Raise (AssertionError (Some (Z.of_nat (length (fields_of line))))).
Proof.
  intros Hrow Hd Hlen. apply is_data_row_inv in Hrow as (H1 & H2 & H3).
  unfold disk_line, py_index. fold (fields_of line).
  rewrite H1, H2, H3, Hd. cbn [negb mbind result_bind].
  rewrite String.eqb_refl. cbn [negb].
  destruct (Nat.eqb_spec (length (fields_of line)) 11);
    [contradiction | reflexivity].
Qed.

Lemma disk_line_some device n line t :
  disk_line py_float device n line = Ok (Some t) ->
  dev t = device /\ is_data_row n line = true.
Proof.
  unfold disk_line, is_data_row, py_index. fold (fields_of line).
  destruct (n <? 3)%nat; [discriminate|].
  destruct (PyStr.startswith line "Average"); [discriminate|].
  destruct (PyStr.nonempty (PyStr.strip line)); [|discriminate].
  cbn [negb andb].
  destruct (fields_of line !! 2%nat) as [l2|]; [|discriminate].
  cbn [mbind result_bind].
  destruct (String.eqb_spec l2 device) as [->|]; [|discriminate].
  cbn [negb].
  destruct (py_assert _ _); [|discriminate]. cbn [mbind result_bind].
  destruct (fields_of line !! 0%nat); [|discriminate].
  destruct (fields_of line !! 1%nat); [|discriminate].
  cbn [mbind result_bind].
  destruct (map_result py_float _) as [fs|]; [|discriminate].
  cbn [mbind result_bind]. unfold DeviceStats_star.
  destruct fs as [|f1 [|f2 [|f3 [|f4 [|f5 [|f6 [|f7 [|f8 [|f9 fs]]]]]]]]];
    try discriminate.
  cbn [mbind result_bind]. intros [= <-]. split; reflexivity.
Qed.

(** C4 (amended): a data line of the requested device whose number of
    fields is not 11 makes [parse_sar_disk] raise, by the assertion of
    that line when no earlier line raises; a data line of another device
    is dropped whatever its number of fields. *)
Theorem parse_sar_disk_field_count lines device (i : nat) line d :
  lines !! i = Some line ->
  is_data_row i line = true ->
  length (fields_of line) <> 11%nat ->
  fields_of line !! 2%nat = Some d ->
  (d = device ->
     disk_line py_float device i line =
       Raise (AssertionError (Some (Z.of_nat (length (fields_of line))))) /\
     raises (parse_sar_disk py_float lines device) /\
     ((forall (j : nat) l, (j < i)%nat -> lines !! j = Some l ->
         is_ok (disk_line py_float device j l) = true) ->
      parse_sar_disk py_float lines device =
        Raise (AssertionError (Some (Z.of_nat (length (fields_of line))))))) /\
  (d <> device -> disk_line py_float device i line = Ok None).
Proof.
  intros Hi Hrow Hlen Hd. split.
  - intros ->.
    pose proof (disk_line_this_device device i line Hrow Hd Hlen) as E.
    split; [exact E|].
    apply (for_lines_raise (disk_line py_float device) lines 0 [] i line);
      assumption.
  - intros Hne. apply disk_line_other_device with d; assumption.
Qed.

(** C8: every record [parse_sar_disk] returns carries the requested
    device, the records are no more than the data rows of the file, and a
    data row of another device is skipped without an error. *)
Theorem parse_sar_disk_device_filter lines device out :
  parse_sar_disk py_float lines device = Ok out ->
  Forall (fun r => dev r = device) out /\
  (length out <= count_rows is_data_row 0 lines)%nat /\
  (forall (i : nat) line d,
     lines !! i = Some line -> is_data_row i line = true ->
     fields_of line !! 2%nat = Some d -> d <> device ->
     disk_line py_float device i line = Ok None).
Proof.
  intros H. unfold parse_sar_disk in H.
  destruct (for_lines_ok (disk_line py_float device)
              (fun r => dev r = device) is_data_row
              (disk_line_some device) lines 0%nat [] out H) as [H1 H2];
    [constructor|].
  split; [exact H1|]. split; [exact H2|].
  intros i line d _ Hrow Hd Hne.
  apply disk_line_other_device with d; assumption.
Qed.

Lemma ram_line_eleven (n : nat) line l0 l1 l2 l3 l4 l5 l6 l7 l8 l9 l10 rest :
  is_ram_row n line = true ->
  fields_of line = l0 :: l1 :: l2 :: l3 :: l4 :: l5 :: l6 :: l7 :: l8 :: l9 ::
                   l10 :: rest ->
  ram_line py_float n line =
  (fs ← map_result py_float [l2; l3; l4; l5; l6; l7; l8; l9; l10];
   t ← MemoryUsage_star (join_time l0 l1) fs;
   Ok (Some t)).
Proof.
  unfold is_ram_row. intros H EF.
  apply andb_prop in H as [H H4]. apply andb_prop in H as [H H3].
  apply andb_prop in H as [H1 H2]. apply negb_true_iff in H2, H3, H4.
  unfold ram_line, py_index. fold (fields_of line).
  rewrite H1, H2, H3, H4, EF. reflexivity.
Qed.

(** A memory row of at least 11 fields that is not skipped, whose fields
    2 to 10 are float literals, yields the record of these nine numbers in
    order; the field at index 10 is kept, as [kbinact], and the record
    does not depend on the fields from index 11 on. *)
Lemma ram_line_numbers (n : nat) line fs :
  is_ram_row n line = true ->
  (11 <= length (fields_of line))%nat ->
  map_result py_float (take 9 (drop 2 (fields_of line))) = Ok fs ->
  exists r,
    ram_line py_float n line = Ok (Some r) /\
    mem_numbers r = fs /\
    (exists f10, fields_of line !! 10%nat = Some f10 /\
                 py_float f10 = Ok (kbinact r)) /\
    (forall (n' : nat) line',
       is_ram_row n' line' = true ->
       take 11 (fields_of line') = take 11 (fields_of line) ->
       ram_line py_float n' line' = Ok (Some r)).
Proof.
  intros Hrow Hlen Hfs.
  destruct (fields_of line)
    as [|l0 [|l1 [|l2 [|l3 [|l4 [|l5 [|l6 [|l7 [|l8 [|l9 [|l10 rest]]]]]]]]]]]
    eqn:EF; simpl in Hlen; try lia.
  rewrite (ram_line_eleven n line _ _ _ _ _ _ _ _ _ _ _ _ Hrow EF).
  cbn [take drop map_result] in Hfs. cbn [map_result].
  destruct (py_float l2) as [f1|] eqn:E2; [|discriminate].
  destruct (py_float l3) as [f2|] eqn:E3; [|discriminate].
  destruct (py_float l4) as [f3|] eqn:E4; [|discriminate].
  destruct (py_float l5) as [f4|] eqn:E5; [|discriminate].
  destruct (py_float l6) as [f5|] eqn:E6; [|discriminate].
  destruct (py_float l7) as [f6|] eqn:E7; [|discriminate].
  destruct (py_float l8) as [f7|] eqn:E8; [|discriminate].
  destruct (py_float l9) as [f8|] eqn:E9; [|discriminate].
  destruct (py_float l10) as [f9|] eqn:E10; [|discriminate].
  cbn [mbind result_bind] in Hfs. injection Hfs as <-.
  cbn [MemoryUsage_star mbind result_bind].
  eexists. split; [reflexivity|]. split; [reflexivity|]. split.
  - exists l10. split; [reflexivity|]. exact E10.
  - intros n' line' Hrow' Htake.
    destruct (fields_of line')
      as [|k0 [|k1 [|k2 [|k3 [|k4 [|k5 [|k6 [|k7 [|k8 [|k9 [|k10 rest']]]]]]]]]]]
      eqn:EF'; try discriminate.
    cbn [take] in Htake.
    injection Htake as -> -> -> -> -> -> -> -> -> -> ->.
    rewrite (ram_line_eleven n' line' _ _ _ _ _ _ _ _ _ _ _ _ Hrow' EF').
    cbn [map_result]. rewrite E2, E3, E4, E5, E6, E7, E8, E9, E10.
    reflexivity.
Qed.

(** C10: when [parse_timelog] returns, the first component of the pair
    is the empty dictionary and the second holds one entry per line of
    the file, in order. *)
Theorem parse_timelog_empty_dict lines d parsed :
  parse_timelog strptime lines = Ok (d, parsed) ->
  d = ∅ /\
  Forall2 (fun line e => timelog_line strptime 0 line = Ok (Some e))
          lines parsed.
Proof.
  unfold parse_timelog.
  destruct (for_lines (timelog_line strptime) 0 lines []) as [out|] eqn:E;
    [|discriminate].
  cbn [mbind result_bind]. intros [= <- <-]. split; [reflexivity|].
  destruct (for_lines_all_some (timelog_line strptime)
              (fun line =>
                 match timelog_line strptime 0 line with
                 | Ok (Some e) => Ok e
                 | Ok None => Raise ValueError
                 | Raise e => Raise e
                 end) lines) with (n := 0%nat) (acc := @nil TimelogEntry)
              (out := out) as (new & -> & HF); [|exact E|].
  - intros n line. unfold timelog_line.
    destruct (unpack3 _) as [[[a b] c]|]; [|reflexivity].
    cbn [mbind result_bind].
    destruct (strptime c _); reflexivity.
  - rewrite app_nil_l. eapply Forall2_impl; [exact HF|].
    intros line e. cbv beta.
    destruct (timelog_line strptime 0 line) as [[e'|]|]; congruence.
Qed.

End TokenizerFacts.

(** ** The tokenizers: examples *)

#[local] Set Warnings "-inexact-float".

Example short_decimal_examples :
  short_decimal "1.5" = Ok 1.5%float /\
  short_decimal "97.00" = Ok 97%float /\
  short_decimal "-0.25" = Ok (-0.25)%float /\
  short_decimal "0.1" = Ok 0.1%float /\
  short_decimal "abc" = Raise ValueError.
Proof. repeat split; reflexivity. Qed.

Example canonical_strptime_example :
  canonical_strptime "Mon Jan 02 15:04:05 UTC 2024" "%a %b %d %H:%M:%S %Z %Y"
  = Ok timelog_start.
Proof. reflexivity. Qed.

Example parse_sar_cpu_example :
  map Cpu <$> parse_sar_cpu short_decimal cpu_report = Ok two_rows.
Proof. vm_compute. reflexivity. Qed.

Example parse_sar_disk_example :
  parse_sar_disk short_decimal disk_report "sda" =
  Ok [mk_DeviceStats (TimeOfDay "06:21:48 PM") "sda" 1.5 0 24 16 0.01 4 2 0.3;
      mk_DeviceStats (TimeOfDay "06:21:58 PM") "sda" 2 8 16 12 0 1 1 0.2].
Proof. vm_compute. reflexivity. Qed.

Example ram_line_example :
  ram_line short_decimal 3 ram_row_11 =
  Ok (Some (mk_MemoryUsage (TimeOfDay "09:40:13 PM")
              1000 2000 66.5 30 40 50 7.5 80 90)).
Proof. vm_compute. reflexivity. Qed.

Example parse_timelog_example :
  parse_timelog canonical_strptime timelog_file =
  Ok (∅, [mk_TimelogEntry "build" "compile" timelog_start;
          mk_TimelogEntry "build" "link" (mk_datetime 2024 1 2 15 9 30 0)]).
Proof. vm_compute. reflexivity. Qed.

(** C4 (as stated) fails: a data line of four fields that names another
    device is dropped, and the parse returns. *)
Lemma parse_sar_disk_short_row_dropped :
  (exists line,
     disk_report_short_other !! 3%nat = Some line /\
     is_data_row 3 line = true /\
     length (fields_of line) = 4%nat) /\
  parse_sar_disk short_decimal disk_report_short_other "sda" = Ok [].
Proof.
  split; [|reflexivity].
  eexists. split; [reflexivity|]. split; reflexivity.
Qed.

Lemma parse_sar_disk_field_count_witness :
  parse_sar_disk short_decimal disk_report_short_same "sda" =
    Raise (AssertionError (Some 4)).
Proof.
  destruct (parse_sar_disk_field_count short_decimal disk_report_short_same
              "sda" 3 "06:21:48 PM       sda      0.00" "sda")
    as [Hsame _];
    [reflexivity | reflexivity | vm_compute; discriminate | reflexivity |].
  destruct (Hsame eq_refl) as (_ & _ & H). apply H.
  intros j l Hj Hl.
  destruct j as [|[|[|j]]]; [| | |lia]; injection Hl as <-; reflexivity.
Defined.

Lemma parse_sar_disk_device_filter_witness :
  Forall (fun r => dev r = "sda")
    [mk_DeviceStats (TimeOfDay "06:21:48 PM") "sda" 1.5 0 24 16 0.01 4 2 0.3;
     mk_DeviceStats (TimeOfDay "06:21:58 PM") "sda" 2 8 16 12 0 1 1 0.2] /\
  (2 <= count_rows is_data_row 0 disk_report)%nat.
Proof.
  destruct (parse_sar_disk_device_filter short_decimal disk_report "sda"
    [mk_DeviceStats (TimeOfDay "06:21:48 PM") "sda" 1.5 0 24 16 0.01 4 2 0.3;
     mk_DeviceStats (TimeOfDay "06:21:58 PM") "sda" 2 8 16 12 0 1 1 0.2])
    as (H1 & H2 & _); [vm_compute; reflexivity|].
  split; [exact H1 | exact H2].
Defined.

(** C5 (as stated) fails: on a row of eleven fields the field at index
    10 is the [kbinact] of the record. *)
Lemma parse_sar_ram_keeps_field_10 :
  length (fields_of ram_row_11) = 11%nat /\
  fields_of ram_row_11 !! 10%nat = Some "90" /\
  exists r,
    parse_sar_ram short_decimal ram_report = Ok [r] /\
    short_decimal "90" = Ok (kbinact r) /\
    mem_numbers r = [1000; 2000; 66.5; 30; 40; 50; 7.5; 80; 90]%float.
Proof.
  split; [reflexivity|]. split; [reflexivity|].
  eexists. split; [vm_compute; reflexivity|]. split; reflexivity.
Qed.

Lemma parse_timelog_empty_dict_witness :
  (∅ : gmap string string) = ∅ /\
  Forall2 (fun line e => timelog_line canonical_strptime 0 line = Ok (Some e))
    timelog_file
    [mk_TimelogEntry "build" "compile" timelog_start;
     mk_TimelogEntry "build" "link" (mk_datetime 2024 1 2 15 9 30 0)].
Proof.
  apply (parse_timelog_empty_dict canonical_strptime timelog_file).
  vm_compute. reflexivity.
Defined.

(** * Further properties *)

(** ** Splitting strings *)

Module PyStrFacts.
Import PyStr.

Lemma append_nil_l s : "" +:+ s = s.
Proof. reflexivity. Qed.

Lemma append_cons c s1 s2 : String c s1 +:+ s2 = String c (s1 +:+ s2).
Proof. reflexivity. Qed.

Lemma split_on_no_sep p s :
  string_forallb (fun c => negb (p c)) s = true -> split_on p s = [s].
Proof.
  induction s as [|c s IH]; [reflexivity|].
  cbn [string_forallb split_on]. intros H.
  apply andb_prop in H as [Hc Hs]. apply negb_true_iff in Hc.
  rewrite Hc, (IH Hs). reflexivity.
Qed.

Lemma split_on_sep p s c rest :
  string_forallb (fun c => negb (p c)) s = true -> p c = true ->
  split_on p (s +:+ String c rest) = s :: split_on p rest.
Proof.
  intros Hs Hc. induction s as [|x s IH].
  - rewrite append_nil_l. cbn [split_on]. rewrite Hc. reflexivity.
  - cbn [string_forallb] in Hs. apply andb_prop in Hs as [Hx Hs].
    apply negb_true_iff in Hx.
    rewrite append_cons. cbn [split_on]. rewrite Hx, (IH Hs). reflexivity.
Qed.

Lemma split_no_sep c s : lacks c s = true -> split c s = [s].
Proof. apply split_on_no_sep. Qed.

Lemma split_sep c s rest :
  lacks c s = true ->
  split c (s +:+ String c rest) = s :: split c rest.
Proof.
  intros H. apply split_on_sep; [exact H | apply Ascii.eqb_refl].
Qed.

Lemma string_forallb_append q s1 s2 :
  string_forallb q (s1 +:+ s2) = string_forallb q s1 && string_forallb q s2.
Proof.
  induction s1 as [|c s1 IH]; [reflexivity|].
  rewrite append_cons. cbn [string_forallb]. rewrite IH, andb_assoc.
  reflexivity.
Qed.

Lemma two_digits_spec n :
  0 <= n < 100 ->
  int (two_digits n) = Ok n /\
  lacks ":" (two_digits n) = true /\ lacks " " (two_digits n) = true.
Proof.
  intros Hn.
  pose proof (CalendarFacts.forallb_range two_digits_ok 100
                ltac:(vm_compute; reflexivity) n Hn) as H.
  unfold two_digits_ok in H.
  apply andb_prop in H as [H H3]. apply andb_prop in H as [H1 H2].
  destruct (int (two_digits n)) as [z|]; [|discriminate].
  apply Z.eqb_eq in H1. subst z. auto.
Qed.

Lemma split_max_0 sep s : split_max sep s 0 = [s].
Proof. destruct s; reflexivity. Qed.

Lemma split_max_length sep s : forall k,
  length (split_max sep s k) = (Nat.min (count_char sep s) k + 1)%nat.
Proof.
  induction s as [|c s IH]; intros [|k]; try reflexivity.
  - cbn [split_max count_char length]. lia.
  - cbn [split_max count_char].
    destruct (Ascii.eqb sep c).
    + cbn [length]. rewrite IH. lia.
    + specialize (IH (S k)).
      destruct (split_max sep s (S k)) as [|t ts]; cbn [length] in *; lia.
Qed.

Lemma split_max_cons sep s : forall k a b rest,
  split_max sep s (S k) = a :: b :: rest ->
  exists s',
    s = a +:+ String sep s' /\ lacks sep a = true /\
    split_max sep s' k = b :: rest.
Proof.
  induction s as [|c s IH]; intros k a b rest H; [discriminate|].
  cbn [split_max] in H.
  destruct (Ascii.eqb sep c) eqn:E.
  - apply Ascii.eqb_eq in E. subst c. injection H as <- H.
    exists s. repeat split. exact H.
  - destruct (split_max sep s (S k)) as [|t ts] eqn:Es; [discriminate|].
    injection H as <- ->.
    destruct (IH _ _ _ _ Es) as (s' & -> & Hl & Hs).
    exists s'. rewrite append_cons. split; [reflexivity|].
    split; [|exact Hs].
    unfold lacks in *. cbn [string_forallb]. rewrite E, Hl. reflexivity.
Qed.

Lemma split_on_pieces p s :
  Forall (fun t => string_forallb (fun c => negb (p c)) t = true)
         (split_on p s).
Proof.
  induction s as [|c s IH]; [repeat constructor|].
  cbn [split_on]. destruct (p c) eqn:E.
  - constructor; [reflexivity | exact IH].
  - destruct (split_on p s) as [|t ts]; [repeat constructor; cbn; now rewrite E|].
    apply Forall_cons in IH as [Ht Hts].
    constructor; [|exact Hts]. cbn [string_forallb]. rewrite E, Ht.
    reflexivity.
Qed.

Lemma string_forallb_impl (q q' : ascii -> bool) s :
  (forall c, q c = true -> q' c = true) ->
  string_forallb q s = true -> string_forallb q' s = true.
Proof.
  intros Hq. induction s as [|c s IH]; [reflexivity|].
  cbn [string_forallb]. intros H. apply andb_prop in H as [Hc Hs].
  rewrite (Hq _ Hc), (IH Hs). reflexivity.
Qed.

(** The fields of [s.split()] hold no space. *)
Lemma split_ws_lacks_space s :
  Forall (fun t => lacks " " t = true) (split_ws s).
Proof.
  unfold split_ws. apply Forall_forall. intros t Ht.
  apply list_elem_of_In, filter_In in Ht as [Ht _].
  pose proof (split_on_pieces is_space s) as H.
  rewrite Forall_forall in H. apply list_elem_of_In, H in Ht.
  revert Ht. apply string_forallb_impl. intros c Hc.
  destruct (Ascii.eqb_spec " " c) as [<-|]; [discriminate | reflexivity].
Qed.

End PyStrFacts.

(** ** [parse_sartime] *)

Section ParseSartime.
Import PyStrFacts.

(** X1: [parse_sartime] reads the text before the first space only:
    whatever follows it, the AM/PM marker of 'sar' included, has no
    effect on the result. *)
Theorem parse_sartime_ignores_suffix t suffix :
  lacks " " t = true ->
  parse_sartime (TimeOfDay (t +:+ String " " suffix)) =
  parse_sartime (TimeOfDay t).
Proof.
  intros H. unfold parse_sartime.
  rewrite (split_sep " " t suffix H), (split_no_sep " " t H). reflexivity.
Qed.

Lemma parse_sartime_ignores_suffix_witness :
  parse_sartime (TimeOfDay "09:40:03 PM") = parse_sartime (TimeOfDay "09:40:03")
  /\ parse_sartime (TimeOfDay "09:40:03 AM") =
     parse_sartime (TimeOfDay "09:40:03").
Proof.
  split.
  - apply (parse_sartime_ignores_suffix "09:40:03" "PM"). reflexivity.
  - apply (parse_sartime_ignores_suffix "09:40:03" "AM"). reflexivity.
Defined.

(** X2: [parse_sartime] reads back every clock time printed as
    ['%02d:%02d:%02d'], whatever follows the first space: the hour comes
    back as printed, on the 12-hour clock when 'sar' prints one. *)
Theorem parse_sartime_sar_clock h m s suffix :
  0 <= h < 100 -> 0 <= m < 100 -> 0 <= s < 100 ->
  parse_sartime (TimeOfDay (sar_clock h m s +:+ String " " suffix)) =
  Ok (h, m, s).
Proof.
  intros Hh Hm Hs.
  destruct (two_digits_spec h Hh) as (Ih & Ch & Sh).
  destruct (two_digits_spec m Hm) as (Im & Cm & Sm).
  destruct (two_digits_spec s Hs) as (Is & Cs & Ss).
  assert (Hsp : lacks " " (sar_clock h m s) = true).
  { unfold sar_clock, lacks in *. rewrite string_forallb_append.
    cbn [string_forallb]. rewrite string_forallb_append.
    cbn [string_forallb]. rewrite Sh, Sm, Ss. reflexivity. }
  unfold parse_sartime. rewrite (split_sep " " _ suffix Hsp).
  cbn [py_index lookup list_lookup mbind result_bind]. unfold sar_clock.
  rewrite (split_sep ":" _ _ Ch), (split_sep ":" _ _ Cm),
    (split_no_sep ":" _ Cs).
  cbn [unpack3 mbind result_bind]. rewrite Ih, Im, Is. reflexivity.
Qed.

Lemma parse_sartime_sar_clock_witness :
  parse_sartime (TimeOfDay (sar_clock 9 40 3 +:+ String " " "PM")) =
  Ok (9, 40, 3).
Proof. apply (parse_sartime_sar_clock 9 40 3 "PM"); lia. Defined.

End ParseSartime.

(** ** [make_timediff] *)

Section MakeTimediffMore.

Lemma make_timediff_ok_inv sar_data d :
  make_timediff sar_data = Ok d ->
  exists x0 x1 h m1 s1 m2 s2,
    sar_data !! 0%nat = Some x0 /\ sar_data !! 1%nat = Some x1 /\
    parse_sartime (time x0) = Ok (h, m1, s1) /\
    parse_sartime (time x1) = Ok (h, m2, s2) /\
    d = (m2 - m1) * 60 + s2 - s1.
Proof.
  unfold make_timediff, py_index.
  destruct (sar_data !! 0%nat) as [x0|] eqn:H0; [|discriminate].
  cbn [mbind result_bind].
  destruct (parse_sartime (time x0)) as [[[h1 m1] s1]|] eqn:P0;
    [|discriminate].
  cbn [mbind result_bind].
  destruct (sar_data !! 1%nat) as [x1|] eqn:H1; [|discriminate].
  cbn [mbind result_bind].
  destruct (parse_sartime (time x1)) as [[[h2 m2] s2]|] eqn:P1;
    [|discriminate].
  cbn [mbind result_bind].
  destruct (Z.eqb_spec h1 h2) as [->|]; [|discriminate].
  cbn [py_assert mbind result_bind]. intros [= <-].
  exists x0, x1, h2, m1, s1, m2, s2. repeat split; assumption.
Qed.

(** X3: when the first two times are clock times, minutes and seconds
    within [0 .. 59], the interval [make_timediff] returns is less than
    one hour in either direction. *)
Theorem make_timediff_below_hour sar_data d :
  make_timediff sar_data = Ok d ->
  (forall (i : nat) x h m s,
     (i < 2)%nat -> sar_data !! i = Some x ->
     parse_sartime (time x) = Ok (h, m, s) ->
     0 <= m <= 59 /\ 0 <= s <= 59) ->
  -3600 < d < 3600.
Proof.
  intros H Hclock.
  apply make_timediff_ok_inv in H
    as (x0 & x1 & h & m1 & s1 & m2 & s2 & H0 & H1 & P0 & P1 & ->).
  pose proof (Hclock 0%nat _ _ _ _ ltac:(lia) H0 P0).
  pose proof (Hclock 1%nat _ _ _ _ ltac:(lia) H1 P1).
  lia.
Qed.

Lemma make_timediff_below_hour_witness : -3600 < 10 < 3600.
Proof.
  apply (make_timediff_below_hour two_rows 10); [reflexivity|].
  intros i x h m s Hi Hx P.
  destruct i as [|[|i]]; [| |lia]; injection Hx as <-;
    vm_compute in P; injection P as <- <- <-; lia.
Defined.

(** X4: [make_timediff] reads the first two samples only, and exchanging
    them negates the interval. *)
Theorem make_timediff_swap x0 x1 rest rest' d :
  make_timediff (x0 :: x1 :: rest) = Ok d ->
  make_timediff (x1 :: x0 :: rest') = Ok (- d).
Proof.
  intros H.
  apply make_timediff_ok_inv in H
    as (y0 & y1 & h & m1 & s1 & m2 & s2 & H0 & H1 & P0 & P1 & ->).
  injection H0 as <-. injection H1 as <-.
  unfold make_timediff, py_index. cbn [lookup list_lookup mbind result_bind].
  rewrite P1. cbn [mbind result_bind]. rewrite P0. cbn [mbind result_bind].
  rewrite Z.eqb_refl. cbn [py_assert mbind result_bind]. f_equal. lia.
Qed.

Lemma make_timediff_swap_witness :
  make_timediff two_rows_reversed = Ok (- 10).
Proof.
  apply (make_timediff_swap (cpu_row "09:40:03 PM" 1 97)
           (cpu_row "09:40:13 PM" 3 95) [] [] 10).
  reflexivity.
Defined.

End MakeTimediffMore.

(** ** [fixtime] *)

Section FixtimeMore.
Import DatetimeFacts.

Lemma same_but_time_replace_eq x x' t :
  same_but_time x x' -> replace_time x t = replace_time x' t.
Proof.
  intros [Hn Ht].
  destruct x as [r|r|r], x' as [r'|r'|r']; try discriminate Hn;
    destruct r, r'; cbn in Ht; injection Ht; intros; subst; reflexivity.
Qed.

Lemma fixtime_loop_same_but_time l l' delta :
  Forall2 same_but_time l l' ->
  forall cur acc,
    fixtime_loop l delta cur acc = fixtime_loop l' delta cur acc.
Proof.
  induction 1 as [|x x' l l' Hx _ IH]; intros cur acc; [reflexivity|].
  cbn [fixtime_loop]. rewrite (same_but_time_replace_eq _ _ _ Hx).
  destruct (dt_add cur delta); cbn [mbind result_bind];
    [apply IH | reflexivity].
Qed.

(** X5: the time fields of the input have no effect on what [fixtime]
    returns or raises: two sequences that agree on every other field are
    rewritten to the same sequence. *)
Theorem fixtime_ignores_times sar_data sar_data' start secdiff :
  Forall2 same_but_time sar_data sar_data' ->
  fixtime sar_data start secdiff = fixtime sar_data' start secdiff.
Proof.
  intros H. unfold fixtime.
  destruct (timedelta_new 0 secdiff 0); cbn [mbind result_bind];
    [apply fixtime_loop_same_but_time, H | reflexivity].
Qed.

Lemma fixtime_ignores_times_witness :
  fixtime two_rows timelog_start 10 =
  fixtime two_rows_other_times timelog_start 10.
Proof.
  apply (fixtime_ignores_times two_rows two_rows_other_times).
  repeat constructor.
Defined.

(** X6: [fixtime] run again on its own result, with the same start and
    interval, returns that result. *)
Theorem fixtime_idempotent sar_data start secdiff out :
  fixtime sar_data start secdiff = Ok out ->
  fixtime out start secdiff = Ok out.
Proof.
  intros H. rewrite <- H. unfold fixtime in *.
  destruct (timedelta_new 0 secdiff 0) as [delta|]; [|discriminate].
  cbn [mbind result_bind] in *.
  destruct (fixtime_loop_shape _ _ _ _ _ H) as (new & -> & HF).
  symmetry. apply fixtime_loop_same_but_time. exact HF.
Qed.

Lemma fixtime_idempotent_witness :
  exists out,
    fixtime two_rows timelog_start 10 = Ok out /\
    fixtime out timelog_start 10 = Ok out.
Proof.
  eexists. split; [vm_compute; reflexivity|].
  apply (fixtime_idempotent two_rows). vm_compute. reflexivity.
Defined.

Lemma fixtime_loop_times sar_data delta : forall cur acc out,
  fixtime_loop sar_data delta cur acc = Ok out ->
  exists new,
    out = acc ++ new /\ length new = length sar_data /\
    Forall (fun y => exists t, time y = Timestamp t) new.
Proof.
  induction sar_data as [|x rest IH]; intros cur acc out H.
  - injection H as <-. exists []. rewrite app_nil_r. repeat split.
    constructor.
  - cbn [fixtime_loop] in H.
    destruct (dt_add cur delta) as [cur'|]; [|discriminate].
    cbn [mbind result_bind] in H.
    destruct (IH _ _ _ H) as (new & -> & Hlen & HF).
    eexists. rewrite <- app_assoc. split; [reflexivity|].
    split; [simpl; lia|].
    constructor; [|exact HF]. eexists. apply time_replace_time.
Qed.

(** X7: the result of [fixtime] cannot be fed back to the functions that
    read the text 'sar' printed: on a non-empty result [make_timediff]
    and [get_sar_start_time] raise [AttributeError]. *)
Theorem fixtime_result_has_no_sar_time sar_data start secdiff out :
  fixtime sar_data start secdiff = Ok out ->
  sar_data <> [] ->
  make_timediff out = Raise AttributeError /\
  forall timelog_timestamp,
    get_sar_start_time out timelog_timestamp = Raise AttributeError.
Proof.
  intros H Hne. unfold fixtime in H.
  destruct (timedelta_new 0 secdiff 0) as [delta|]; [|discriminate].
  cbn [mbind result_bind] in H.
  destruct (fixtime_loop_times _ _ _ _ _ H) as (new & -> & Hlen & HF).
  rewrite app_nil_l.
  destruct new as [|y new];
    [destruct sar_data; [contradiction | discriminate]|].
  apply Forall_cons in HF as [[t Ht] _].
  unfold make_timediff, get_sar_start_time, py_index.
  cbn [lookup list_lookup mbind result_bind]. rewrite Ht.
  split; [reflexivity | intros ref; reflexivity].
Qed.

Lemma fixtime_result_has_no_sar_time_witness :
  exists out,
    fixtime two_rows timelog_start 10 = Ok out /\
    make_timediff out = Raise AttributeError.
Proof.
  eexists. split; [vm_compute; reflexivity|].
  apply (fixtime_result_has_no_sar_time two_rows timelog_start 10);
    [vm_compute; reflexivity | discriminate].
Defined.

Lemma fixtime_closed_form sar_data start secdiff :
  valid_datetime start = true ->
  fixtime_in_range start secdiff (length sar_data) = true ->
  fixtime sar_data start secdiff =
  Ok (imap (fun i x =>
              replace_time x
                (Timestamp (time_at start (secdiff * 1000000) i)))
           sar_data).
Proof.
  intros V H.
  destruct (fixtime_in_range_inv _ _ _ V H) as [(delta & Hd & Ed) R].
  unfold fixtime. rewrite Hd. cbn [mbind result_bind].
  rewrite fixtime_loop_spec; [|assumption|];
    [|intros k Hk; rewrite Ed; apply R; lia].
  rewrite Ed, app_nil_l. reflexivity.
Qed.

Lemma fixtime_in_range_intro start secdiff (n : nat) :
  valid_datetime start = true ->
  is_ok (timedelta_new 0 secdiff 0) = true ->
  abs_in_range (dt_abs_us start + Z.of_nat n * (secdiff * 1000000)) = true ->
  fixtime_in_range start secdiff n = true.
Proof.
  intros V Hd R. unfold fixtime_in_range. rewrite Hd.
  rewrite start_plus_ok; [reflexivity | assumption |].
  replace (Z.of_nat n * secdiff * 1000000)
    with (Z.of_nat n * (secdiff * 1000000)) by lia.
  exact R.
Qed.

(** X8: [fixtime] on a concatenation is [fixtime] on the first part
    followed by [fixtime] on the second part, started where the first part
    ends, at [start + timedelta(0, len(first) * secdiff)]. *)
Theorem fixtime_app l1 l2 start secdiff out :
  valid_datetime start = true ->
  fixtime (l1 ++ l2) start secdiff = Ok out ->
  exists out1 mid out2,
    fixtime l1 start secdiff = Ok out1 /\
    start_plus start (Z.of_nat (length l1) * secdiff) = Ok mid /\
    fixtime l2 mid secdiff = Ok out2 /\
    out = out1 ++ out2.
Proof.
  intros V H.
  pose proof (fixtime_ok_in_range _ _ _ _ V H) as HR.
  rewrite (fixtime_closed_form _ _ _ V HR) in H. injection H as <-.
  pose proof HR as HR'. apply andb_prop in HR' as [Hd _].
  destruct (fixtime_in_range_inv _ _ _ V HR) as [_ R].
  rewrite length_app in R.
  set (step := secdiff * 1000000) in *.
  set (n1 := length l1) in *.
  destruct (time_at_valid start step n1) as [Vm Am]; [apply R; lia|].
  assert (R1 : fixtime_in_range start secdiff n1 = true)
    by (apply fixtime_in_range_intro; [assumption.. | apply R; lia]).
  assert (R2 : fixtime_in_range (time_at start step n1) secdiff (length l2)
               = true).
  { apply fixtime_in_range_intro; [assumption..|]. rewrite Am. fold step.
    replace (dt_abs_us start + Z.of_nat n1 * step +
             Z.of_nat (length l2) * step)
      with (dt_abs_us start + Z.of_nat (n1 + length l2) * step) by lia.
    apply R. lia. }
  exists (imap (fun i x =>
                  replace_time x (Timestamp (time_at start step i))) l1),
         (time_at start step n1),
         (imap (fun i x =>
                  replace_time x
                    (Timestamp (time_at (time_at start step n1) step i))) l2).
  split; [apply fixtime_closed_form; assumption|].
  split.
  { rewrite start_plus_ok; [|assumption|].
    - unfold time_at, step. do 2 f_equal. lia.
    - replace (Z.of_nat n1 * secdiff * 1000000)
        with (Z.of_nat n1 * step) by (unfold step; lia).
      apply R. lia. }
  split; [apply fixtime_closed_form; assumption|].
  rewrite imap_app. f_equal. apply imap_ext. intros i x _.
  cbv beta. do 2 f_equal. fold n1.
  change (time_at (time_at start step n1) step i)
    with (dt_of_abs_us (dt_abs_us (time_at start step n1) +
                        Z.of_nat i * step)).
  rewrite Am. unfold time_at. f_equal. lia.
Qed.

Lemma fixtime_app_witness :
  exists out1 mid out2,
    fixtime [cpu_row "09:40:03 PM" 1 97] timelog_start 10 = Ok out1 /\
    start_plus timelog_start (1 * 10) = Ok mid /\
    fixtime [cpu_row "09:40:13 PM" 3 95] mid 10 = Ok out2 /\
    mid = mk_datetime 2024 1 2 15 4 15 0.
Proof.
  destruct (fixtime_app [cpu_row "09:40:03 PM" 1 97]
              [cpu_row "09:40:13 PM" 3 95] timelog_start 10
              (imap (fun i x =>
                       replace_time x
                         (Timestamp (time_at timelog_start 10000000 i)))
                    two_rows))
    as (out1 & mid & out2 & H1 & Hm & H2 & _);
    [reflexivity | vm_compute; reflexivity |].
  exists out1, mid, out2. split; [exact H1|]. split; [exact Hm|].
  split; [exact H2|]. vm_compute in Hm. congruence.
Defined.

(** X20: the first record [fixtime] returns carries [start] itself, as
    it is given. *)
Theorem fixtime_first_is_start x rest start secdiff out :
  fixtime (x :: rest) start secdiff = Ok out ->
  out !! 0%nat = Some (replace_time x (Timestamp start)).
Proof.
  unfold fixtime.
  destruct (timedelta_new 0 secdiff 0) as [delta|]; [|discriminate].
  cbn [mbind result_bind fixtime_loop].
  destruct (dt_add start delta) as [cur|]; [|discriminate].
  cbn [mbind result_bind]. intros H.
  apply fixtime_loop_times in H as (new & -> & _). reflexivity.
Qed.

Lemma fixtime_first_is_start_witness :
  exists out,
    fixtime two_rows timelog_start 10 = Ok out /\
    out !! 0%nat =
      Some (replace_time (cpu_row "09:40:03 PM" 1 97) (Timestamp timelog_start)).
Proof.
  eexists. split; [vm_compute; reflexivity|].
  apply (fixtime_first_is_start _ [cpu_row "09:40:13 PM" 3 95] _ 10).
  vm_compute. reflexivity.
Defined.

End FixtimeMore.

(** ** The loop of the tokenizers *)

Section ForLinesMore.
Context {A : Type} (body : nat -> string -> result (option A)).

Lemma for_lines_app l1 : forall n acc l2,
  for_lines body n (l1 ++ l2) acc =
  for_lines body n l1 acc ≫= for_lines body (n + length l1) l2.
Proof.
  induction l1 as [|x l1 IH]; intros n acc l2.
  - cbn [app for_lines length mbind result_bind]. rewrite Nat.add_0_r.
    reflexivity.
  - cbn [app for_lines length].
    destruct (body n x) as [r|e]; cbn [mbind result_bind]; [|reflexivity].
    rewrite IH. replace (S n + length l1)%nat with (n + S (length l1))%nat
      by lia. reflexivity.
Qed.

Lemma for_lines_ext (body' : nat -> string -> result (option A)) lines :
  forall n n' acc,
    (forall (i : nat) line, lines !! i = Some line ->
       body (n + i)%nat line = body' (n' + i)%nat line) ->
    for_lines body n lines acc = for_lines body' n' lines acc.
Proof.
  induction lines as [|x lines IH]; intros n n' acc H; [reflexivity|].
  cbn [for_lines].
  pose proof (H 0%nat x eq_refl) as H0. rewrite !Nat.add_0_r in H0.
  rewrite H0. destruct (body' n' x) as [r|e]; cbn [mbind result_bind];
    [|reflexivity].
  apply IH. intros i line Hi.
  replace (S n + i)%nat with (n + S i)%nat by lia.
  replace (S n' + i)%nat with (n' + S i)%nat by lia.
  apply H. exact Hi.
Qed.

(** The loop returns when no line raises, and then with the records of
    the lines, in the order of the lines. *)
Lemma for_lines_collect lines : forall n acc out,
  for_lines body n lines acc = Ok out <->
  exists rs,
    imap (fun i line => body (n + i)%nat line) lines = Ok <$> rs /\
    out = acc ++ kept rs.
Proof.
  induction lines as [|x lines IH]; intros n acc out.
  - cbn [for_lines imap]. split.
    + intros [= <-]. exists []. rewrite app_nil_r. split; reflexivity.
    + intros (rs & Hrs & ->). destruct rs; [|discriminate].
      rewrite app_nil_r. reflexivity.
  - cbn [for_lines imap]. rewrite Nat.add_0_r. split.
    + destruct (body n x) as [r|e]; [|discriminate].
      cbn [mbind result_bind]. intros H.
      apply IH in H as (rs & Hrs & ->).
      exists (r :: rs). split.
      * cbn [fmap list_fmap]. f_equal. rewrite <- Hrs.
        apply imap_ext. intros i y _. cbv beta. unfold compose.
        f_equal. lia.
      * unfold kept. cbn [omap list_omap]. destruct r as [t|]; cbn.
        -- rewrite <- app_assoc. reflexivity.
        -- reflexivity.
    + intros (rs & Hrs & ->). destruct rs as [|r rs]; [discriminate|].
      cbn [fmap list_fmap] in Hrs. injection Hrs as Hr Hrs.
      rewrite Hr. cbn [mbind result_bind]. apply IH.
      exists rs. split.
      * rewrite <- Hrs. apply imap_ext. intros i y _. cbv beta.
        unfold compose. f_equal. lia.
      * unfold kept. cbn [omap list_omap]. destruct r as [t|]; cbn.
        -- rewrite <- app_assoc. reflexivity.
        -- reflexivity.
Qed.

(** A record of the result comes from a line of the file. *)
Lemma for_lines_from_line lines out t :
  for_lines body 0 lines [] = Ok out ->
  t ∈ out ->
  exists (i : nat) line, lines !! i = Some line /\ body i line = Ok (Some t).
Proof.
  intros H Ht. apply for_lines_collect in H as (rs & Hrs & ->).
  rewrite app_nil_l in Ht. unfold kept in Ht.
  apply list_elem_of_omap in Ht as (r & Hr & Hid). cbv in Hid. subst r.
  apply list_elem_of_lookup in Hr as [i Hi].
  apply (f_equal (fun l => l !! i)) in Hrs.
  rewrite list_lookup_imap, list_lookup_fmap, Hi in Hrs.
  destruct (lines !! i) as [line|] eqn:Hl; [|discriminate].
  cbn in Hrs. injection Hrs as Hb. exists i, line. split; assumption.
Qed.

Lemma for_lines_header lines :
  (forall (i : nat) line, (i < 3)%nat -> body i line = Ok None) ->
  forall n acc, (n + length lines <= 3)%nat ->
    for_lines body n lines acc = Ok acc.
Proof.
  intros Hb. induction lines as [|x lines IH]; intros n acc Hn;
    [reflexivity|].
  cbn [for_lines]. simpl in Hn. rewrite Hb by lia.
  cbn [mbind result_bind]. apply IH. lia.
Qed.

(** Past the header, a line that is passed over can be taken out. *)
Lemma for_lines_drop_skipped l1 line l2 :
  (3 <= length l1)%nat ->
  (forall n, (3 <= n)%nat -> body n line = Ok None) ->
  (forall n n' l, (3 <= n)%nat -> (3 <= n')%nat -> body n l = body n' l) ->
  for_lines body 0 (l1 ++ line :: l2) [] = for_lines body 0 (l1 ++ l2) [].
Proof.
  intros Hl Hskip Hlate. rewrite !for_lines_app.
  destruct (for_lines body 0 l1 []) as [acc|e]; cbn [mbind result_bind];
    [|reflexivity].
  cbn [for_lines]. rewrite Hskip by lia. cbn [mbind result_bind].
  apply for_lines_ext. intros i l _. apply Hlate; lia.
Qed.

End ForLinesMore.

(** ** The 'sar' tokenizers *)

Section TokenizersMore.
Variable py_float : string -> result float.

Lemma cpu_skips_inv line :
  cpu_skips line = false ->
  PyStr.nonempty (PyStr.strip line) = true /\
  PyStr.startswith line "Average" = false /\
  PyStr.contains "%user" line = false.
Proof.
  unfold cpu_skips. intros H.
  apply orb_false_elim in H as [H H3]. apply orb_false_elim in H as [H1 H2].
  apply negb_false_iff in H1. auto.
Qed.

Lemma ram_skips_inv line :
  ram_skips line = false ->
  PyStr.nonempty (PyStr.strip line) = true /\
  PyStr.startswith line "Average" = false /\
  PyStr.contains "kbmemfree" line = false.
Proof.
  unfold ram_skips. intros H.
  apply orb_false_elim in H as [H H3]. apply orb_false_elim in H as [H1 H2].
  apply negb_false_iff in H1. auto.
Qed.

Lemma cpu_line_skips n line :
  (n < 3)%nat \/ cpu_skips line = true -> cpu_line py_float n line = Ok None.
Proof.
  unfold cpu_line, cpu_skips. intros H.
  destruct (PyStr.nonempty (PyStr.strip line)); [|reflexivity].
  cbn [negb orb] in *.
  destruct (Nat.ltb_spec n 3); [reflexivity|].
  destruct (PyStr.startswith line "Average"); [reflexivity|].
  destruct (PyStr.contains "%user" line); [reflexivity|].
  destruct H; [lia | discriminate].
Qed.

Lemma ram_line_skips n line :
  (n < 3)%nat \/ ram_skips line = true -> ram_line py_float n line = Ok None.
Proof.
  unfold ram_line, ram_skips. intros H.
  destruct (PyStr.nonempty (PyStr.strip line)); [|reflexivity].
  cbn [negb orb] in *.
  destruct (Nat.ltb_spec n 3); [reflexivity|].
  destruct (PyStr.startswith line "Average"); [reflexivity|].
  destruct (PyStr.contains "kbmemfree" line); [reflexivity|].
  destruct H; [lia | discriminate].
Qed.

Lemma disk_line_skips device n line :
  (n < 3)%nat \/ disk_skips line = true ->
  disk_line py_float device n line = Ok None.
Proof.
  unfold disk_line, disk_skips. intros H.
  destruct (Nat.ltb_spec n 3); [reflexivity|].
  destruct (PyStr.startswith line "Average"); [reflexivity|].
  destruct (PyStr.nonempty (PyStr.strip line)); [|reflexivity].
  destruct H; [lia | discriminate].
Qed.

Lemma ltb_3_late n : (3 <= n)%nat -> (n <? 3)%nat = false.
Proof. intros H. apply Nat.ltb_ge, H. Qed.

Lemma cpu_line_late n n' line :
  (3 <= n)%nat -> (3 <= n')%nat ->
  cpu_line py_float n line = cpu_line py_float n' line.
Proof.
  intros H H'. unfold cpu_line. rewrite !ltb_3_late by assumption.
  reflexivity.
Qed.

Lemma ram_line_late n n' line :
  (3 <= n)%nat -> (3 <= n')%nat ->
  ram_line py_float n line = ram_line py_float n' line.
Proof.
  intros H H'. unfold ram_line. rewrite !ltb_3_late by assumption.
  reflexivity.
Qed.

Lemma disk_line_late device n n' line :
  (3 <= n)%nat -> (3 <= n')%nat ->
  disk_line py_float device n line = disk_line py_float device n' line.
Proof.
  intros H H'. unfold disk_line. rewrite !ltb_3_late by assumption.
  reflexivity.
Qed.

(** X9: a report of at most three lines is all header: the three 'sar'
    tokenizers return the empty list and never raise, whatever the lines
    hold. *)
Theorem sar_report_header_only lines :
  (length lines <= 3)%nat ->
  parse_sar_cpu py_float lines = Ok [] /\
  parse_sar_ram py_float lines = Ok [] /\
  forall device, parse_sar_disk py_float lines device = Ok [].
Proof.
  intros H. unfold parse_sar_cpu, parse_sar_ram, parse_sar_disk.
  repeat split; [| |intros device]; apply for_lines_header; try lia;
    intros i line Hi.
  - apply cpu_line_skips. auto.
  - apply ram_line_skips. auto.
  - apply disk_line_skips. auto.
Qed.

(** X10: past the three header lines, a line the tokenizer passes over
    (a blank line, an 'Average' line, a repeated header for the CPU and
    memory reports) can be taken out of the file, or put in, without any
    effect on the result. *)
Theorem sar_report_skipped_line l1 line l2 :
  (3 <= length l1)%nat ->
  (cpu_skips line = true ->
   parse_sar_cpu py_float (l1 ++ line :: l2) =
   parse_sar_cpu py_float (l1 ++ l2)) /\
  (ram_skips line = true ->
   parse_sar_ram py_float (l1 ++ line :: l2) =
   parse_sar_ram py_float (l1 ++ l2)) /\
  (disk_skips line = true -> forall device,
   parse_sar_disk py_float (l1 ++ line :: l2) device =
   parse_sar_disk py_float (l1 ++ l2) device).
Proof.
  intros Hl. unfold parse_sar_cpu, parse_sar_ram, parse_sar_disk.
  repeat split; intros Hs; [| |intros device];
    apply for_lines_drop_skipped; try assumption.
  - intros n _. apply cpu_line_skips. auto.
  - intros n n' l. apply cpu_line_late.
  - intros n _. apply ram_line_skips. auto.
  - intros n n' l. apply ram_line_late.
  - intros n _. apply disk_line_skips. auto.
  - intros n n' l. apply disk_line_late.
Qed.

(** X11: each 'sar' tokenizer returns exactly when no line of the file
    raises, and then with the records of the lines that yield one, in
    the order of the file. *)
Theorem sar_report_in_file_order lines :
  (forall out,
     parse_sar_cpu py_float lines = Ok out <->
     exists rs, imap (cpu_line py_float) lines = Ok <$> rs /\ out = kept rs) /\
  (forall out,
     parse_sar_ram py_float lines = Ok out <->
     exists rs, imap (ram_line py_float) lines = Ok <$> rs /\ out = kept rs) /\
  (forall device out,
     parse_sar_disk py_float lines device = Ok out <->
     exists rs, imap (disk_line py_float device) lines = Ok <$> rs /\
                out = kept rs).
Proof.
  unfold parse_sar_cpu, parse_sar_ram, parse_sar_disk.
  repeat split; try (intros H; apply for_lines_collect in H; exact H);
    intros H; apply for_lines_collect; exact H.
Qed.

Lemma is_cpu_row_inv n line :
  is_cpu_row n line = true ->
  (n <? 3)%nat = false /\
  PyStr.nonempty (PyStr.strip line) = true /\
  PyStr.startswith line "Average" = false /\
  PyStr.contains "%user" line = false.
Proof.
  unfold is_cpu_row. intros H. apply andb_prop in H as [H1 H2].
  apply negb_true_iff in H1, H2. apply cpu_skips_inv in H2. tauto.
Qed.

(** X12: a CPU line that is not passed over and does not split into
    exactly 9 fields makes [parse_sar_cpu] raise, whatever its third
    field: by the assertion of that line when no earlier line raises. *)
Theorem parse_sar_cpu_field_count lines (i : nat) line :
  lines !! i = Some line ->
  is_cpu_row i line = true ->
  length (fields_of line) <> 9%nat ->
  raises (parse_sar_cpu py_float lines) /\
  ((forall (j : nat) l, (j < i)%nat -> lines !! j = Some l ->
      is_ok (cpu_line py_float j l) = true) ->
   parse_sar_cpu py_float lines =
   Raise (AssertionError (Some (Z.of_nat (length (fields_of line)))))).
Proof.
  intros Hi Hrow Hlen. apply is_cpu_row_inv in Hrow as (H1 & H2 & H3 & H4).
  apply (for_lines_raise (cpu_line py_float) lines 0 [] i line _ Hi).
  unfold cpu_line. fold (fields_of line). cbn [Nat.add].
  rewrite H1, H2, H3, H4. cbn [negb].
  destruct (Nat.eqb_spec (length (fields_of line)) 9);
    [contradiction | reflexivity].
Qed.

(** X13: a memory line that is not passed over and splits into fewer
    than 11 fields makes [parse_sar_ram] raise: by the assertion of that
    line when no earlier line raises. *)
Theorem parse_sar_ram_field_count lines (i : nat) line :
  lines !! i = Some line ->
  is_ram_row i line = true ->
  (length (fields_of line) < 11)%nat ->
  raises (parse_sar_ram py_float lines) /\
  ((forall (j : nat) l, (j < i)%nat -> lines !! j = Some l ->
      is_ok (ram_line py_float j l) = true) ->
   parse_sar_ram py_float lines =
   Raise (AssertionError (Some (Z.of_nat (length (fields_of line)))))).
Proof.
  intros Hi Hrow Hlen. unfold is_ram_row in Hrow.
  apply andb_prop in Hrow as [Hrow H4]. apply andb_prop in Hrow as [Hrow H3].
  apply andb_prop in Hrow as [H1 H2]. apply negb_true_iff in H2, H3, H4.
  apply (for_lines_raise (ram_line py_float) lines 0 [] i line _ Hi).
  unfold ram_line. fold (fields_of line). cbn [Nat.add].
  rewrite H1, H2, H3, H4. cbn [negb].
  destruct (Nat.leb_spec 11 (length (fields_of line))); [lia | reflexivity].
Qed.

(** X14: a disk line that is not passed over and splits into fewer than
    3 fields has no device field: [parse_sar_disk] raises, by the
    [IndexError] of that line when no earlier line raises, and not by its
    assertion. *)
Theorem parse_sar_disk_no_device_field lines device (i : nat) line :
  lines !! i = Some line ->
  is_data_row i line = true ->
  (length (fields_of line) < 3)%nat ->
  raises (parse_sar_disk py_float lines device) /\
  ((forall (j : nat) l, (j < i)%nat -> lines !! j = Some l ->
      is_ok (disk_line py_float device j l) = true) ->
   parse_sar_disk py_float lines device = Raise IndexError).
Proof.
  intros Hi Hrow Hlen. apply is_data_row_inv in Hrow as (H1 & H2 & H3).
  apply (for_lines_raise (disk_line py_float device) lines 0 [] i line _ Hi).
  unfold disk_line, py_index. fold (fields_of line). cbn [Nat.add].
  rewrite H1, H2, H3. cbn [negb].
  rewrite (lookup_ge_None_2 (fields_of line) 2) by lia. reflexivity.
Qed.

Lemma cpu_line_some_inv n line r :
  cpu_line py_float n line = Ok (Some r) ->
  is_cpu_row n line = true /\ cpu_record_of py_float line r.
Proof.
  unfold cpu_line, is_cpu_row, cpu_skips, cpu_record_of, py_index.
  fold (fields_of line).
  destruct (PyStr.nonempty (PyStr.strip line)); [|discriminate].
  destruct (n <? 3)%nat; [discriminate|].
  destruct (PyStr.startswith line "Average"); [discriminate|].
  destruct (PyStr.contains "%user" line); [discriminate|].
  cbn [negb andb orb].
  destruct (Nat.eqb_spec (length (fields_of line)) 9) as [Hlen|];
    [|discriminate].
  cbn [py_assert mbind result_bind].
  destruct (fields_of line) as [|f0 [|f1 [|f2 rest]]];
    try (simpl in Hlen; lia).
  cbn [lookup list_lookup mbind result_bind drop].
  change (drop 0 rest) with rest.
  destruct (map_result py_float rest) as [fs|] eqn:Efs;
    cbn [mbind result_bind]; [|discriminate].
  unfold CPUUsage_star.
  destruct fs as [|a [|b [|c [|d [|e [|f [|g fs]]]]]]]; try discriminate.
  cbn [mbind result_bind]. intros [= <-]. split; [reflexivity|].
  exists f0, f1, f2, rest.
  split; [reflexivity|]. split; [simpl in Hlen; lia|].
  split; [reflexivity|]. split; [reflexivity | exact Efs].
Qed.

(** X15: every record [parse_sar_cpu] returns was read from a line of
    the file past the header that splits into exactly 9 fields: its time
    is the first two fields joined by a space, its [cpu] is the third and
    its six percentages are the last six fields, in order. *)
Theorem parse_sar_cpu_records lines out :
  parse_sar_cpu py_float lines = Ok out ->
  Forall (fun r =>
            exists (i : nat) line,
              lines !! i = Some line /\ is_cpu_row i line = true /\
              cpu_record_of py_float line r) out.
Proof.
  intros H. apply Forall_forall. intros r Hr.
  destruct (for_lines_from_line _ _ _ _ H Hr) as (i & line & Hi & Hb).
  apply cpu_line_some_inv in Hb as [Hrow Hrec].
  exists i, line. auto.
Qed.

Lemma disk_line_some_inv device n line r :
  disk_line py_float device n line = Ok (Some r) ->
  is_data_row n line = true /\ dev r = device /\
  disk_record_of py_float line r.
Proof.
  unfold disk_line, is_data_row, disk_record_of, py_index.
  fold (fields_of line).
  destruct (n <? 3)%nat; [discriminate|].
  destruct (PyStr.startswith line "Average"); [discriminate|].
  destruct (PyStr.nonempty (PyStr.strip line)); [|discriminate].
  cbn [negb andb].
  destruct (fields_of line) as [|f0 [|f1 [|f2 rest]]]; try discriminate.
  cbn [lookup list_lookup mbind result_bind].
  destruct (String.eqb_spec f2 device) as [->|]; [|discriminate].
  cbn [negb].
  destruct (Nat.eqb_spec (length (f0 :: f1 :: device :: rest)) 11)
    as [Hlen|]; [|discriminate].
  cbn [py_assert mbind result_bind drop]. change (drop 0 rest) with rest.
  destruct (map_result py_float rest) as [fs|] eqn:Efs;
    cbn [mbind result_bind]; [|discriminate].
  unfold DeviceStats_star.
  destruct fs as [|a [|b [|c [|d [|e [|f [|g [|h [|k fs]]]]]]]]];
    try discriminate.
  cbn [mbind result_bind]. intros [= <-].
  split; [reflexivity|]. split; [reflexivity|].
  exists f0, f1, device, rest.
  split; [reflexivity|]. split; [simpl in Hlen; lia|].
  split; [reflexivity|]. split; [reflexivity | exact Efs].
Qed.

(** X16: every record [parse_sar_disk] returns was read from a line of
    the file past the header that splits into exactly 11 fields: its time
    is the first two fields joined by a space, its [dev] is the third and
    its eight numbers are the last eight fields, in order. *)
Theorem parse_sar_disk_records lines device out :
  parse_sar_disk py_float lines device = Ok out ->
  Forall (fun r =>
            exists (i : nat) line,
              lines !! i = Some line /\ is_data_row i line = true /\
              disk_record_of py_float line r) out.
Proof.
  intros H. apply Forall_forall. intros r Hr.
  destruct (for_lines_from_line _ _ _ _ H Hr) as (i & line & Hi & Hb).
  apply disk_line_some_inv in Hb as (Hrow & _ & Hrec).
  exists i, line. auto.
Qed.

(** X19: the time of a record of [parse_sar_cpu] parses as the first
    field of its line alone: the second field, the AM/PM marker, never
    reaches [make_timediff] or [get_sar_start_time]. *)
Theorem parse_sar_cpu_time_of_day lines out :
  parse_sar_cpu py_float lines = Ok out ->
  Forall (fun r =>
            exists (i : nat) line f0,
              lines !! i = Some line /\
              fields_of line !! 0%nat = Some f0 /\
              parse_sartime (cpu_time r) = parse_sartime (TimeOfDay f0)) out.
Proof.
  intros H. apply Forall_forall. intros r Hr.
  destruct (for_lines_from_line _ _ _ _ H Hr) as (i & line & Hi & Hb).
  apply cpu_line_some_inv in Hb
    as [_ (f0 & f1 & f2 & rest & Ef & _ & Et & _)].
  exists i, line, f0. split; [exact Hi|]. rewrite Ef.
  split; [reflexivity|]. rewrite Et.
  pose proof (PyStrFacts.split_ws_lacks_space (PyStr.strip line)) as Hl.
  fold (fields_of line) in Hl. rewrite Ef in Hl.
  apply Forall_cons in Hl as [Hl _].
  change (join_time f0 f1) with (f0 +:+ String " " f1).
  unfold parse_sartime.
  rewrite (PyStrFacts.split_sep " " f0 f1 Hl),
    (PyStrFacts.split_no_sep " " f0 Hl).
  reflexivity.
Qed.

End TokenizersMore.

Lemma sar_report_header_only_witness :
  parse_sar_cpu short_decimal ["garbage"; "09:40:03 PM all 1.0"; "x y z"]
  = Ok [].
Proof.
  apply (sar_report_header_only short_decimal
           ["garbage"; "09:40:03 PM all 1.0"; "x y z"]).
  simpl. lia.
Defined.

Lemma sar_report_skipped_line_witness :
  parse_sar_cpu short_decimal
    (take 4 cpu_report ++
     "09:40:04 PM     CPU     %user     %nice   %system   %iowait    %steal     %idle"
     :: drop 4 cpu_report)
  = parse_sar_cpu short_decimal cpu_report.
Proof.
  destruct (sar_report_skipped_line short_decimal (take 4 cpu_report)
    "09:40:04 PM     CPU     %user     %nice   %system   %iowait    %steal     %idle"
    (drop 4 cpu_report)) as (H & _); [simpl; lia|].
  rewrite (H eq_refl). reflexivity.
Defined.

Lemma parse_sar_cpu_field_count_witness :
  parse_sar_cpu short_decimal cpu_report_short_row =
  Raise (AssertionError (Some 4)).
Proof.
  destruct (parse_sar_cpu_field_count short_decimal cpu_report_short_row 3
              "09:40:03 PM     all      1.0") as [_ H];
    [reflexivity | vm_compute; reflexivity | vm_compute; discriminate |].
  apply H. intros j l Hj Hl.
  destruct j as [|[|[|j]]]; [| | |lia]; injection Hl as <-;
    vm_compute; reflexivity.
Defined.

Lemma parse_sar_ram_field_count_witness :
  parse_sar_ram short_decimal ram_report_short_row =
  Raise (AssertionError (Some 5)).
Proof.
  destruct (parse_sar_ram_field_count short_decimal ram_report_short_row 3
              "09:40:13 PM   1000   2000   66.5") as [_ H];
    [reflexivity | vm_compute; reflexivity | vm_compute; lia |].
  apply H. intros j l Hj Hl.
  destruct j as [|[|[|j]]]; [| | |lia]; injection Hl as <-;
    vm_compute; reflexivity.
Defined.

Lemma parse_sar_disk_no_device_field_witness :
  parse_sar_disk short_decimal disk_report_time_only "sda" = Raise IndexError.
Proof.
  destruct (parse_sar_disk_no_device_field short_decimal
              disk_report_time_only "sda" 3 "06:21:48 PM") as [_ H];
    [reflexivity | vm_compute; reflexivity | vm_compute; lia |].
  apply H. intros j l Hj Hl.
  destruct j as [|[|[|j]]]; [| | |lia]; injection Hl as <-;
    vm_compute; reflexivity.
Defined.

Lemma sar_report_in_file_order_witness :
  exists rs,
    imap (cpu_line short_decimal) cpu_report = Ok <$> rs /\
    length (kept rs) = 2%nat.
Proof.
  destruct (sar_report_in_file_order short_decimal cpu_report) as (H & _).
  destruct (H [mk_CPUUsage (TimeOfDay "09:40:03 PM") "all" 1 0 2 0 0 97;
               mk_CPUUsage (TimeOfDay "09:40:13 PM") "all" 3 0 2 0 0 95])
    as [H1 _].
  destruct H1 as (rs & Hrs & Hk); [vm_compute; reflexivity|].
  exists rs. split; [exact Hrs|]. rewrite <- Hk. reflexivity.
Defined.

Lemma parse_sar_cpu_records_witness :
  Forall (fun r =>
            exists (i : nat) line,
              cpu_report !! i = Some line /\ is_cpu_row i line = true /\
              cpu_record_of short_decimal line r)
    [mk_CPUUsage (TimeOfDay "09:40:03 PM") "all" 1 0 2 0 0 97;
     mk_CPUUsage (TimeOfDay "09:40:13 PM") "all" 3 0 2 0 0 95].
Proof.
  apply (parse_sar_cpu_records short_decimal cpu_report).
  vm_compute. reflexivity.
Defined.

#[local] Set Warnings "-inexact-float".

Lemma parse_sar_disk_records_witness :
  Forall (fun r =>
            exists (i : nat) line,
              disk_report !! i = Some line /\ is_data_row i line = true /\
              disk_record_of short_decimal line r)
    [mk_DeviceStats (TimeOfDay "06:21:48 PM") "sda" 1.5 0 24 16 0.01 4 2 0.3;
     mk_DeviceStats (TimeOfDay "06:21:58 PM") "sda" 2 8 16 12 0 1 1 0.2].
Proof.
  apply (parse_sar_disk_records short_decimal disk_report "sda").
  vm_compute. reflexivity.
Defined.

(** ** [parse_timelog] *)

Section TimelogMore.
Import PyStrFacts.
Variable strptime : string -> string -> result datetime.

Lemma unpack3_short {A} (l : list A) :
  length l <> 3%nat -> unpack3 l = Raise ValueError.
Proof.
  intros H. destruct l as [|a [|b [|c [|d l]]]]; try reflexivity.
  simpl in H. lia.
Qed.

(** X17: a timelog line with fewer than two spaces between its first
    and last printing bytes, a blank line included, makes [parse_timelog]
    raise: by the [ValueError] of that line when no earlier line raises. *)
Theorem parse_timelog_short_line lines (i : nat) line :
  lines !! i = Some line ->
  (count_char " " (PyStr.strip line) < 2)%nat ->
  raises (parse_timelog strptime lines) /\
  ((forall (j : nat) l, (j < i)%nat -> lines !! j = Some l ->
      is_ok (timelog_line strptime j l) = true) ->
   parse_timelog strptime lines = Raise ValueError).
Proof.
  intros Hi Hc.
  assert (E : timelog_line strptime (0 + i) line = Raise ValueError).
  { unfold timelog_line. rewrite unpack3_short; [reflexivity|].
    rewrite split_max_length. lia. }
  destruct (for_lines_raise (timelog_line strptime) lines 0 [] i line _ Hi E)
    as [[e He] Hfirst].
  unfold parse_timelog. split.
  - exists e. rewrite He. reflexivity.
  - intros Hok. rewrite (Hfirst Hok). reflexivity.
Qed.

Lemma timelog_line_inv n line e :
  timelog_line strptime n line = Ok (Some e) ->
  timelog_entry_of strptime line e.
Proof.
  unfold timelog_line, timelog_entry_of.
  destruct (PyStr.split_max " " (PyStr.strip line) 2)
    as [|a [|b [|c [|x l]]]] eqn:Es; try discriminate.
  cbn [unpack3 mbind result_bind].
  destruct (strptime c _) as [t|] eqn:Et; [|discriminate].
  cbn [mbind result_bind]. intros [= <-]. cbn [script stage timestamp].
  destruct (split_max_cons _ _ _ _ _ _ Es) as (s1 & E1 & L1 & Es1).
  destruct (split_max_cons _ _ _ _ _ _ Es1) as (s2 & E2 & L2 & Es2).
  rewrite split_max_0 in Es2. injection Es2 as ->.
  exists c. rewrite E1, E2. auto.
Qed.

Lemma timelog_line_some n line :
  timelog_line strptime n line =
  (fun t => Some t) <$>
  match timelog_line strptime 0 line with
  | Ok (Some e) => Ok e
  | Ok None => Raise ValueError
  | Raise e => Raise e
  end.
Proof.
  unfold timelog_line.
  destruct (unpack3 _) as [[[a b] c]|]; [|reflexivity].
  cbn [mbind result_bind]. destruct (strptime c _); reflexivity.
Qed.

Lemma parse_timelog_lines lines d parsed :
  parse_timelog strptime lines = Ok (d, parsed) ->
  Forall2 (fun line e => timelog_line strptime 0 line = Ok (Some e))
          lines parsed.
Proof.
  unfold parse_timelog.
  destruct (for_lines (timelog_line strptime) 0 lines []) as [out|] eqn:E;
    [|discriminate].
  cbn [mbind result_bind]. intros [= <- <-].
  destruct (for_lines_all_some (timelog_line strptime) _ lines
              timelog_line_some 0%nat [] out E) as (new & -> & HF).
  rewrite app_nil_l. eapply Forall2_impl; [exact HF|].
  intros line e. cbv beta.
  destruct (timelog_line strptime 0 line) as [[e'|]|]; congruence.
Qed.

(** X18: every entry [parse_timelog] returns spells out its line: the
    stripped line is the script, a space, the stage, a space and the rest,
    which [strptime] reads as the time stamp of the entry; script and
    stage hold no space. One entry per line, in order. *)
Theorem parse_timelog_entries lines d parsed :
  parse_timelog strptime lines = Ok (d, parsed) ->
  Forall2 (timelog_entry_of strptime) lines parsed.
Proof.
  intros H. apply parse_timelog_lines in H.
  eapply Forall2_impl; [exact H|].
  intros line e. apply timelog_line_inv.
Qed.

End TimelogMore.

Lemma parse_timelog_short_line_witness :
  parse_timelog canonical_strptime timelog_file_blank_line = Raise ValueError.
Proof.
  destruct (parse_timelog_short_line canonical_strptime
              timelog_file_blank_line 1 "") as [_ H];
    [reflexivity | vm_compute; lia |].
  apply H. intros j l Hj Hl.
  destruct j as [|j]; [|lia]. injection Hl as <-. vm_compute. reflexivity.
Defined.

Lemma parse_timelog_entries_witness :
  Forall2 (timelog_entry_of canonical_strptime) timelog_file
    [mk_TimelogEntry "build" "compile" timelog_start;
     mk_TimelogEntry "build" "link" (mk_datetime 2024 1 2 15 9 30 0)].
Proof.
  apply (parse_timelog_entries canonical_strptime timelog_file ∅).
  vm_compute. reflexivity.
Defined.

Lemma parse_sar_cpu_time_of_day_witness :
  Forall (fun r =>
            exists (i : nat) line f0,
              cpu_report !! i = Some line /\
              fields_of line !! 0%nat = Some f0 /\
              parse_sartime (cpu_time r) = parse_sartime (TimeOfDay f0))
    [mk_CPUUsage (TimeOfDay "09:40:03 PM") "all" 1 0 2 0 0 97;
     mk_CPUUsage (TimeOfDay "09:40:13 PM") "all" 3 0 2 0 0 95].
Proof.
  apply (parse_sar_cpu_time_of_day short_decimal cpu_report).
  vm_compute. reflexivity.
Defined.

(** ** [parse_sar_ram]: the records of the rows *)

Section ForLinesRows.
Context {A : Type} (body : nat -> string -> result (option A)).

Lemma for_lines_total lines : forall n acc,
  (forall (j : nat) l, lines !! j = Some l ->
     is_ok (body (n + j)%nat l) = true) ->
  exists out, for_lines body n lines acc = Ok out.
Proof.
  induction lines as [|x lines IH]; intros n acc H; [eexists; reflexivity|].
  cbn [for_lines].
  pose proof (H 0%nat x eq_refl) as H0. rewrite Nat.add_0_r in H0.
  destruct (body n x) as [r|]; [|discriminate]. cbn [mbind result_bind].
  apply IH. intros j l Hj.
  replace (S n + j)%nat with (n + S j)%nat by lia. apply H. exact Hj.
Qed.

(** The record of a line is in the result. *)
Lemma for_lines_member lines out (i : nat) line t :
  for_lines body 0 lines [] = Ok out ->
  lines !! i = Some line ->
  body i line = Ok (Some t) ->
  t ∈ out.
Proof.
  intros H Hi Hb. apply for_lines_collect in H as (rs & Hrs & ->).
  rewrite app_nil_l. unfold kept. apply list_elem_of_omap.
  exists (Some t). split; [|reflexivity].
  apply list_elem_of_lookup. exists i.
  apply (f_equal (fun l => l !! i)) in Hrs.
  rewrite list_lookup_imap, list_lookup_fmap, Hi in Hrs. cbn in Hrs.
  rewrite Hb in Hrs. destruct (rs !! i) as [r|]; [|discriminate].
  cbn in Hrs. congruence.
Qed.

(** A line can be exchanged for one with the same result. *)
Lemma for_lines_insert lines : forall n acc (i : nat) line line',
  lines !! i = Some line ->
  body (n + i)%nat line' = body (n + i)%nat line ->
  for_lines body n (<[i:=line']> lines) acc = for_lines body n lines acc.
Proof.
  induction lines as [|x lines IH]; intros n acc i line line' Hi Hb;
    [discriminate|].
  destruct i as [|i].
  - injection Hi as ->. rewrite Nat.add_0_r in Hb.
    cbn [insert list_insert for_lines]. rewrite Hb. reflexivity.
  - cbn [insert list_insert for_lines].
    destruct (body n x) as [r|]; cbn [mbind result_bind]; [|reflexivity].
    apply (IH _ _ _ line); [exact Hi|].
    replace (S n + i)%nat with (n + S i)%nat by lia. exact Hb.
Qed.

End ForLinesRows.

Section RamRecords.
Variable py_float : string -> result float.

(** C5 (amended): for a memory row of the file that is not skipped, has
    at least 11 fields and whose fields 2 to 10 are float literals,
    [parse_sar_ram] either raises on another line or returns a list that
    holds the record of these nine numbers in order; the field at index
    10 is kept, as [kbinact]; the fields from index 11 on are left out:
    exchanging the row for one with the same first 11 fields does not
    change the result of [parse_sar_ram]. *)
Theorem parse_sar_ram_numbers lines (i : nat) line fs :
  lines !! i = Some line ->
  is_ram_row i line = true ->
  (11 <= length (fields_of line))%nat ->
  map_result py_float (take 9 (drop 2 (fields_of line))) = Ok fs ->
  exists r,
    mem_numbers r = fs /\
    (exists f10, fields_of line !! 10%nat = Some f10 /\
                 py_float f10 = Ok (kbinact r)) /\
    (forall out, parse_sar_ram py_float lines = Ok out -> r ∈ out) /\
    ((forall (j : nat) l, lines !! j = Some l ->
        is_ok (ram_line py_float j l) = true) ->
     exists out, parse_sar_ram py_float lines = Ok out /\ r ∈ out) /\
    (forall line',
       is_ram_row i line' = true ->
       take 11 (fields_of line') = take 11 (fields_of line) ->
       parse_sar_ram py_float (<[i:=line']> lines) =
       parse_sar_ram py_float lines).
Proof.
  intros Hi Hrow Hlen Hfs.
  destruct (ram_line_numbers py_float i line fs Hrow Hlen Hfs)
    as (r & Hr & Hn & H10 & Hsame).
  exists r. split; [exact Hn|]. split; [exact H10|].
  unfold parse_sar_ram. split; [|split].
  - intros out Hout. apply (for_lines_member _ _ _ _ _ _ Hout Hi Hr).
  - intros Hok.
    destruct (for_lines_total (ram_line py_float) lines 0 [] Hok)
      as [out Hout].
    exists out. split; [exact Hout|].
    apply (for_lines_member _ _ _ _ _ _ Hout Hi Hr).
  - intros line' Hrow' Htake.
    apply (for_lines_insert _ _ _ _ _ line); [exact Hi|].
    cbn [Nat.add]. rewrite Hr. apply Hsame; assumption.
Qed.

End RamRecords.

Lemma parse_sar_ram_numbers_witness :
  exists out r,
    parse_sar_ram short_decimal ram_report = Ok out /\ r ∈ out /\
    mem_numbers r = [1000; 2000; 66.5; 30; 40; 50; 7.5; 80; 90]%float /\
    short_decimal "90" = Ok (kbinact r) /\
    parse_sar_ram short_decimal (<[3%nat:=ram_row_12]> ram_report) =
    parse_sar_ram short_decimal ram_report.
Proof.
  destruct (parse_sar_ram_numbers short_decimal ram_report 3 ram_row_11
              [1000; 2000; 66.5; 30; 40; 50; 7.5; 80; 90]%float)
    as (r & Hn & (f10 & Hf & H10) & _ & Htot & Hsame);
    [reflexivity | vm_compute; reflexivity | vm_compute; lia
    | vm_compute; reflexivity |].
  destruct Htot as (out & Hout & Hin).
  { intros j l Hl.
    destruct j as [|[|[|[|j]]]]; try discriminate; injection Hl as <-;
      vm_compute; reflexivity. }
  exists out, r. split; [exact Hout|]. split; [exact Hin|].
  split; [exact Hn|]. split.
  - vm_compute in Hf. injection Hf as <-. exact H10.
  - apply Hsame; vm_compute; reflexivity.
Defined.
